(** * PathCORE analysis utilities: a shallow embedding of [utils.py]

    The module is a set of loaders that turn tab-delimited text files into
    tables ([pandas.DataFrame]) or dictionaries.  The embedding has three
    layers:

    - text and files: Python [str.split], [file.readline], [file.tell] and
      [file.seek] over a file's content, with character offsets;
    - a model of the part of pandas the loaders call ([read_csv],
      [set_index], [concat], [sort_values], ...);
    - the five functions of [utils.py], written over the two layers above
      in the order of their source statements.

    Scope of the pandas model.  A cell is an integer, a floating-point
    number, a truth value, text or the missing value.  The parser types
    each column as a whole: it tries integers, then floating-point
    numbers, then truth values, and keeps text otherwise
    ([Pandas.column_dtype]); a field that is one of the default
    missing-value tokens ([Pandas.na_values]: the empty field, [NA],
    [NaN], [null], ...) is the missing value in a column of any type, and
    an integer column with a missing value is a floating-point column.
    A floating-point cell carries the exact value of its literal as a
    rational number; the rounding to 64-bit floating point and the 64-bit
    range of integers are not modelled.  The names read from a header
    line are made distinct as pandas does ([Pandas.header_names]).  Lines
    are terminated by the newline character; quoting, comments and
    carriage returns are not modelled.  A data row with more fields than
    the table has columns is a parser error, a shorter row is padded with
    the missing value.

    The loop of the weight-matrix helper is run for a given number of
    passes ([fuel]); the outcome [Running] says that the loop condition
    still holds after them. *)

From Stdlib Require Import ZArith QArith Qcanon String Ascii List Bool Lia.
From Stdlib Require Import Sorting.Sorted.
From Stdlib Require DecimalString.
From stdpp Require Import base gmap sets list strings.

Local Open Scope string_scope.
Local Open Scope list_scope.

(** ** Text *)

Module Text.

Definition tab : ascii := Ascii.ascii_of_nat 9.
Definition newline : ascii := Ascii.ascii_of_nat 10.
Definition space : ascii := Ascii.ascii_of_nat 32.

(** [s.split(sep)] for a one-character separator: never the empty list. *)
Fixpoint split (sep : ascii) (s : string) : list string :=
  match s with
  | EmptyString => [EmptyString]
  | String c r =>
      if Ascii.eqb c sep then EmptyString :: split sep r
      else match split sep r with
           | [] => [String c EmptyString]
           | f :: fs => String c f :: fs
           end
  end.

(** The first line of [s], terminator included, and what follows it. *)
Fixpoint read_line (s : string) : string * string :=
  match s with
  | EmptyString => (EmptyString, EmptyString)
  | String c r =>
      if Ascii.eqb c newline then (String c EmptyString, r)
      else let '(l, r') := read_line r in (String c l, r')
  end.

(** All lines of [s], each with its terminator (the last may lack one). *)
Fixpoint file_lines (s : string) : list string :=
  match s with
  | EmptyString => []
  | String c r =>
      if Ascii.eqb c newline then String c EmptyString :: file_lines r
      else match file_lines r with
           | [] => [String c EmptyString]
           | l :: ls => String c l :: ls
           end
  end.

Fixpoint drop_str (n : nat) (s : string) : string :=
  match n, s with
  | O, _ => s
  | S _, EmptyString => EmptyString
  | S k, String _ r => drop_str k r
  end.

Fixpoint concat_str (ls : list string) : string :=
  match ls with
  | [] => EmptyString
  | l :: ls' => String.append l (concat_str ls')
  end.

(** A line without its terminator. *)
Fixpoint chomp (s : string) : string :=
  match s with
  | EmptyString => EmptyString
  | String c r => if Ascii.eqb c newline then EmptyString else String c (chomp r)
  end.

Fixpoint contains_char (c : ascii) (s : string) : bool :=
  match s with
  | EmptyString => false
  | String d r => Ascii.eqb d c || contains_char c r
  end.

(** [sep.join(fields)] *)
Fixpoint join (sep : ascii) (fields : list string) : string :=
  match fields with
  | [] => EmptyString
  | [f] => f
  | f :: fields' => String.append f (String sep (join sep fields'))
  end.

(** A line of tab-separated fields with its terminator. *)
Definition row (fields : list string) : string :=
  String.append (join tab fields) (String newline EmptyString).

(** The number of fields of a line: [len(line.split(sep))]. *)
Definition field_count (sep : ascii) (line : string) : nat :=
  length (split sep line).

End Text.

(** ** Files *)

Module File.

(** An open text file: its content and the read position. *)
Record text_file := mk_file { content : string; cursor : nat }.

Definition open (s : string) : text_file := mk_file s 0.

Definition remaining (f : text_file) : string :=
  Text.drop_str (cursor f) (content f).

Definition readline (f : text_file) : string * text_file :=
  let line := fst (Text.read_line (remaining f)) in
  (line, mk_file (content f) (cursor f + String.length line)).

Definition tell (f : text_file) : nat := cursor f.

Definition seek (f : text_file) (pos : nat) : text_file :=
  mk_file (content f) pos.

End File.

(** ** Outcomes *)

Inductive exn :=
| FileNotFoundError (path : string)
| ValueError (msg : string)
| EmptyDataError (msg : string)
| ParserError (msg : string)
| AttributeError (msg : string)
| TypeError (msg : string)
| KeyError (msg : string).

(** The outcome of a call: a value, a raised exception, or [Running] when
    the iteration budget given to the model ran out with a loop of the
    source still executing. *)
Inductive result (A : Type) :=
| Returned (a : A)
| Raised (e : exn)
| Running.

Arguments Returned {A} a.
Arguments Raised {A} e.
Arguments Running {A}.

Definition bind {A B} (r : result A) (k : A -> result B) : result B :=
  match r with
  | Returned a => k a
  | Raised e => Raised e
  | Running => Running
  end.

Notation "'let*' x ':=' r 'in' k" := (bind r (fun x => k))
  (at level 10, x name, r at level 100, k at level 200).

(** ** The pandas model *)

Module Pandas.

(** A floating-point value: the exact value of a decimal literal, or an
    infinity. *)
Inductive float_value :=
| Finite (q : Qc)
| Infinity (negative : bool).

#[global] Instance float_value_eq_dec : EqDecision float_value.
Proof. solve_decision. Defined.

(** A cell of a table, a row label or a column label. *)
Inductive cell :=
| Int (z : Z)
| Float (x : float_value)
| Bool (b : bool)
| Str (s : string)
| NaN.

#[global] Instance cell_eq_dec : EqDecision cell.
Proof. solve_decision. Defined.

Definition cell_encode (c : cell) : Z + (Qc + bool) + bool + string + unit :=
  match c with
  | Int z => inl (inl (inl (inl z)))
  | Float (Finite q) => inl (inl (inl (inr (inl q))))
  | Float (Infinity n) => inl (inl (inl (inr (inr n))))
  | Bool b => inl (inl (inr b))
  | Str s => inl (inr s)
  | NaN => inr tt
  end.

Definition cell_decode (x : Z + (Qc + bool) + bool + string + unit) : cell :=
  match x with
  | inl (inl (inl (inl z))) => Int z
  | inl (inl (inl (inr (inl q)))) => Float (Finite q)
  | inl (inl (inl (inr (inr n)))) => Float (Infinity n)
  | inl (inl (inr b)) => Bool b
  | inl (inr s) => Str s
  | inr _ => NaN
  end.

#[global] Instance cell_countable : Countable cell.
Proof.
  apply (inj_countable' cell_encode cell_decode).
  intros [| [|] | | |]; reflexivity.
Defined.

Record DataFrame := mk_frame {
  index_name : option cell;
  index : list cell;
  columns : list cell;
  values : list (list cell)
}.

Definition n_rows (df : DataFrame) : nat := length (index df).
Definition n_columns (df : DataFrame) : nat := length (columns df).

(** The default row labels [0 .. n-1]. *)
Definition range_index (n : nat) : list cell :=
  map (fun i => Int (Z.of_nat i)) (seq 0 n).

(** *** Literals *)

Fixpoint all_chars (p : ascii -> bool) (s : string) : bool :=
  match s with
  | EmptyString => true
  | String c r => p c && all_chars p r
  end.

(** The blanks the number converters skip around a literal. *)
Definition is_space (c : ascii) : bool :=
  let n := nat_of_ascii c in
  (n =? 32)%nat || ((9 <=? n)%nat && (n <=? 13)%nat).

Fixpoint skip_spaces (s : string) : string :=
  match s with
  | String c r => if is_space c then skip_spaces r else s
  | EmptyString => s
  end.

Definition digit_of (c : ascii) : option Z :=
  let n := nat_of_ascii c in
  if (48 <=? n)%nat && (n <=? 57)%nat then Some (Z.of_nat (n - 48)) else None.

(** The digits at the front of [s], and what follows them. *)
Fixpoint read_digits (s : string) : list Z * string :=
  match s with
  | EmptyString => ([], s)
  | String c r =>
      match digit_of c with
      | Some d => let '(ds, rest) := read_digits r in (d :: ds, rest)
      | None => ([], s)
      end
  end.

Definition number_of (ds : list Z) : Z :=
  fold_left (fun acc d => 10 * acc + d)%Z ds 0%Z.

(** An optional sign: is it a minus, and what follows it. *)
Definition read_sign (s : string) : bool * string :=
  match s with
  | String c r =>
      if Ascii.eqb c "-"%char then (true, r)
      else if Ascii.eqb c "+"%char then (false, r)
      else (false, s)
  | EmptyString => (false, s)
  end.

Definition signed (negative : bool) (z : Z) : Z :=
  if negative then (- z)%Z else z.

(** An integer literal: blanks, an optional sign, at least one digit,
    blanks. *)
Definition parse_int (s : string) : option Z :=
  let '(negative, s1) := read_sign (skip_spaces s) in
  let '(ds, s2) := read_digits s1 in
  match ds with
  | [] => None
  | _ => if all_chars is_space s2 then Some (signed negative (number_of ds))
         else None
  end.

(** The value [m * 10 ^ e]. *)
Definition decimal (m e : Z) : Qc :=
  if (0 <=? e)%Z then Q2Qc (inject_Z (m * 10 ^ e))
  else Q2Qc (Qmake m (Z.to_pos (10 ^ (- e)))).

(** The exponent part of a literal, when there is one with digits. *)
Definition read_exponent (s : string) : Z * string :=
  match s with
  | String c r =>
      if Ascii.eqb c "e"%char || Ascii.eqb c "E"%char then
        let '(negative, r1) := read_sign r in
        let '(ds, r2) := read_digits r1 in
        match ds with
        | [] => (0%Z, s)
        | _ => (signed negative (number_of ds), r2)
        end
      else (0%Z, s)
  | EmptyString => (0%Z, s)
  end.

(** A decimal literal: blanks, an optional sign, digits with an optional
    point among them (at least one digit), an optional exponent, blanks. *)
Definition parse_decimal (s : string) : option Qc :=
  let '(negative, s1) := read_sign (skip_spaces s) in
  let '(ip, s2) := read_digits s1 in
  let '(fp, s3) :=
    match s2 with
    | String c r => if Ascii.eqb c "."%char then read_digits r else ([], s2)
    | EmptyString => ([], s2)
    end in
  match ip ++ fp with
  | [] => None
  | ds =>
      let '(e, s4) := read_exponent s3 in
      if all_chars is_space s4
      then Some (decimal (signed negative (number_of ds))
                   (e - Z.of_nat (length fp)))
      else None
  end.

Definition lower_char (c : ascii) : ascii :=
  let n := nat_of_ascii c in
  if (65 <=? n)%nat && (n <=? 90)%nat then ascii_of_nat (n + 32) else c.

Fixpoint lower (s : string) : string :=
  match s with
  | EmptyString => EmptyString
  | String c r => String (lower_char c) (lower r)
  end.

Definition one_of (tokens : list string) (s : string) : bool :=
  existsb (String.eqb s) tokens.

(** A floating-point literal: a decimal literal, or an infinity in any
    letter case. *)
Definition parse_float (s : string) : option float_value :=
  match parse_decimal s with
  | Some q => Some (Finite q)
  | None =>
      if one_of ["inf"; "+inf"; "infinity"; "+infinity"] (lower s)
      then Some (Infinity false)
      else if one_of ["-inf"; "-infinity"] (lower s)
      then Some (Infinity true)
      else None
  end.

Definition parse_bool (s : string) : option bool :=
  if one_of ["True"; "TRUE"; "true"] s then Some true
  else if one_of ["False"; "FALSE"; "false"] s then Some false
  else None.

(** *** Missing values and column types *)

(** The fields [read_csv] takes for a missing value by default (the list
    of pandas 2; earlier releases lack [<NA>] and [None]). *)
Definition na_values : list string :=
  [EmptyString; "#N/A"; "#N/A N/A"; "#NA"; "-1.#IND"; "-1.#QNAN"; "-NaN";
   "-nan"; "1.#IND"; "1.#QNAN"; "<NA>"; "N/A"; "NA"; "NULL"; "NaN"; "None";
   "n/a"; "nan"; "null"].

Definition is_na (s : string) : bool := one_of na_values s.

(** A raw field: [None] where a short row was padded. *)
Definition raw_missing (f : option string) : bool :=
  match f with
  | None => true
  | Some s => is_na s
  end.

(** Does [p] accept every field of the column that is not missing? *)
Definition all_present (p : string -> bool) (col : list (option string)) : bool :=
  forallb (fun f => raw_missing f || match f with
                                     | Some s => p s
                                     | None => false
                                     end) col.

Inductive dtype := Int64 | Float64 | Boolean | Object.

#[global] Instance dtype_eq_dec : EqDecision dtype.
Proof. solve_decision. Defined.

(** The type of a column: the converters are tried in the order integer,
    floating point, boolean, text; the first that accepts every field that
    is not missing gives the type.  Integers have no missing value: an
    integer column with one is a floating-point column. *)
Definition column_dtype (col : list (option string)) : dtype :=
  if all_present (fun s => bool_decide (is_Some (parse_int s))) col then
    if existsb raw_missing col then Float64 else Int64
  else if all_present (fun s => bool_decide (is_Some (parse_float s))) col
  then Float64
  else if all_present (fun s => bool_decide (is_Some (parse_bool s))) col
  then Boolean
  else Object.

Definition to_cell (d : dtype) (f : option string) : cell :=
  match f with
  | None => NaN
  | Some s =>
      if is_na s then NaN
      else
        match d with
        | Int64 => match parse_int s with Some z => Int z | None => Str s end
        | Float64 =>
            match parse_float s with Some x => Float x | None => Str s end
        | Boolean =>
            match parse_bool s with Some b => Bool b | None => Str s end
        | Object => Str s
        end
  end.


(** The type of each of the [w] columns. *)
Definition column_dtypes (w : nat) (rows : list (list (option string)))
  : list dtype :=
  map (fun j => column_dtype (map (fun r => nth j r None) rows)) (seq 0 w).

Fixpoint convert_row (dtypes : list dtype) (r : list (option string)) : list cell :=
  match dtypes, r with
  | d :: dtypes', f :: r' => to_cell d f :: convert_row dtypes' r'
  | _, _ => []
  end.

Definition infer_types (w : nat) (rows : list (list (option string))) : list (list cell) :=
  let dtypes := column_dtypes w rows in
  map (convert_row dtypes) rows.

(** *** Tokenizing *)

(** Lines the tokenizer skips: empty, or only blanks that are not the
    separator. *)
Definition blank_line (sep : ascii) (l : string) : bool :=
  all_chars (fun c => (Ascii.eqb c Text.space || Ascii.eqb c Text.tab)
                      && negb (Ascii.eqb c sep)) l.

Definition records (sep : ascii) (text : string) : list (list string) :=
  map (Text.split sep)
    (List.filter (fun l => negb (blank_line sep l))
       (map Text.chomp (Text.file_lines text))).

Fixpoint pad_rows (w : nat) (rows : list (list string))
  : result (list (list (option string))) :=
  match rows with
  | [] => Returned []
  | r :: rows' =>
      if (w <? length r)%nat
      then Raised (ParserError "Error tokenizing data")
      else
        let* rest := pad_rows w rows' in
        Returned ((map Some r ++ replicate (w - length r) None) :: rest)
  end.

(** *** [read_csv] *)

(** The keyword arguments the loaders pass; [None] is an absent key. *)
Record read_csv_args := mk_args {
  header : option nat;
  sep : ascii;
  index_col : option nat;
  nrows : option Z;
  names : option (list string);
  usecols : option (list string)
}.

Definition cell_eqb (a b : cell) : bool := bool_decide (a = b).

Definition check_nrows (n : option Z) : result unit :=
  match n with
  | Some z =>
      if (z <? 0)%Z then Raised (ValueError "'nrows' must be an integer >=0")
      else Returned tt
  | None => Returned tt
  end.

Definition take_nrows {A} (n : option Z) (l : list A) : list A :=
  match n with
  | Some z => take (Z.to_nat z) l
  | None => l
  end.

(** Column names from a header line.  An empty field is named after its
    position; a name that was given out before is renamed [X.1], [X.2],
    ... by the count kept for it, and renamed again while the new name is
    itself taken (releases of pandas differ only on a header that itself
    holds a name of the form [X.1] or [Unnamed: 1]).  [counts] holds the
    count of every name given out; the renaming loop visits a name given
    out at each pass, so it makes at most [size counts] passes. *)
Definition show_nat (n : nat) : string :=
  DecimalString.NilZero.string_of_uint (Nat.to_uint n).

Fixpoint mangle (fuel : nat) (counts : gmap string nat) (name : string)
  : gmap string nat * string :=
  match fuel with
  | O => (counts, name)
  | S fuel' =>
      let count := default O (counts !! name) in
      if (0 <? count)%nat
      then mangle fuel' (<[name := S count]> counts)
             (name +:+ "." +:+ show_nat count)
      else (counts, name)
  end.

Fixpoint header_loop (i : nat) (counts : gmap string nat) (fields : list string)
  : list string :=
  match fields with
  | [] => []
  | f :: fields' =>
      let name :=
        if String.eqb f EmptyString then "Unnamed: " +:+ show_nat i else f in
      let '(counts, name) := mangle (S (size counts)) counts name in
      name :: header_loop (S i)
                (<[name := S (default O (counts !! name))]> counts) fields'
  end.

Definition header_names (fields : list string) : list string :=
  header_loop 0 ∅ fields.

(** Column labels and data records: [names] when given, else the names
    from the header line when there is one, else the integers [0 .. w-1]
    for the width [w] of the first record. *)
Definition labels_and_data (kw : read_csv_args) (recs : list (list string))
  : result (list cell * list (list string)) :=
  match recs with
  | [] => Raised (EmptyDataError "No columns to parse from file")
  | first :: rest =>
      match names kw, header kw with
      | Some ns, Some _ => Returned (map Str ns, rest)
      | Some ns, None => Returned (map Str ns, recs)
      | None, Some _ => Returned (map Str (header_names first), rest)
      | None, None => Returned (range_index (length first), recs)
      end
  end.

Fixpoint keep {A} (mask : list bool) (l : list A) : list A :=
  match mask, l with
  | b :: mask', x :: l' => if b then x :: keep mask' l' else keep mask' l'
  | _, _ => []
  end.

Definition select_mask (labels : list cell) (uc : option (list string))
  : result (list bool) :=
  match uc with
  | None => Returned (map (fun _ => true) labels)
  | Some cs =>
      if forallb (fun c => existsb (cell_eqb (Str c)) labels) cs
      then Returned (map (fun l => existsb (cell_eqb l) (map Str cs)) labels)
      else Raised (ValueError "Usecols do not match columns")
  end.

Definition remove_nth {A} (i : nat) (l : list A) : list A :=
  take i l ++ drop (S i) l.

Definition apply_index_col (ic : option nat) (labels : list cell)
    (rows : list (list cell)) : result DataFrame :=
  match ic with
  | None => Returned (mk_frame None (range_index (length rows)) labels rows)
  | Some i =>
      match labels !! i with
      | None => Raised (ValueError "Index column out of range")
      | Some name =>
          Returned (mk_frame (Some name) (map (fun r => nth i r NaN) rows)
                      (remove_nth i labels) (map (remove_nth i) rows))
      end
  end.

Definition read_csv (text : string) (kw : read_csv_args) : result DataFrame :=
  let* ok := check_nrows (nrows kw) in
  let* ld := labels_and_data kw (records (sep kw) text) in
  let data := take_nrows (nrows kw) (snd ld) in
  let* raw := pad_rows (length (fst ld)) data in
  let* mask := select_mask (fst ld) (usecols kw) in
  let labels := keep mask (fst ld) in
  let typed := infer_types (length labels) (map (keep mask) raw) in
  apply_index_col (index_col kw) labels typed.

(** *** Frame operations *)

Fixpoint position (x : cell) (l : list cell) : option nat :=
  match l with
  | [] => None
  | y :: l' => if cell_eqb x y then Some O else option_map S (position x l')
  end.

Definition column (name : cell) (df : DataFrame) : option (list cell) :=
  option_map (fun i => map (fun r => nth i r NaN) (values df))
    (position name (columns df)).

(** [df.set_index(name, inplace=True)] *)
Definition set_index (name : cell) (df : DataFrame) : result DataFrame :=
  match position name (columns df) with
  | None => Raised (KeyError "None of the keys are in the columns")
  | Some i =>
      Returned (mk_frame (Some name) (map (fun r => nth i r NaN) (values df))
                  (remove_nth i (columns df)) (map (remove_nth i) (values df)))
  end.

(** [pd.concat([a, b], axis=1)] for two frames that carry the default
    row labels, the only use in the loaders: rows are aligned by number
    and the shorter frame is padded with the missing value. *)
Definition concat_columns (a b : DataFrame) : DataFrame :=
  let n := Nat.max (n_rows a) (n_rows b) in
  mk_frame None (range_index n) (columns a ++ columns b)
    (map (fun i => nth i (values a) (replicate (n_columns a) NaN)
                   ++ nth i (values b) (replicate (n_columns b) NaN))
       (seq 0 n)).

(** [df.index.rename(name, inplace=True)] *)
Definition rename_index (name : cell) (df : DataFrame) : DataFrame :=
  mk_frame (Some name) (index df) (columns df) (values df).

(** [df.columns = labels] *)
Definition set_columns (labels : list cell) (df : DataFrame) : result DataFrame :=
  if (length labels =? n_columns df)%nat
  then Returned (mk_frame (index_name df) (index df) labels (values df))
  else Raised (ValueError "Length mismatch").

Definition is_str (c : cell) : bool :=
  match c with Str _ => true | _ => false end.

(** [df.index.str.contains(c, regex=False)]: the accessor exists on a
    text index only; a missing label gives a missing entry, on which the
    negation that the loader applies next fails. *)
Definition index_str_contains (c : ascii) (df : DataFrame) : result (list bool) :=
  if forallb is_str (index df) then
    Returned (map (fun l => match l with
                            | Str s => Text.contains_char c s
                            | _ => false
                            end) (index df))
  else if existsb is_str (index df) then
    Raised (TypeError "bad operand type for unary -")
  else
    Raised (AttributeError "Can only use .str accessor with string values").

(** [df[mask]] for a boolean mask *)
Definition select_rows (mask : list bool) (df : DataFrame) : DataFrame :=
  mk_frame (index_name df) (keep mask (index df)) (columns df)
    (keep mask (values df)).

(** *** Ordering and sorting *)

(** The order of sorted output: numbers by value, [False] before [True],
    text by code point, the missing value last.  A column holds cells of
    one kind and the missing value; cells of different kinds are ordered
    by kind. *)
Definition float_leb (x y : float_value) : bool :=
  match x, y with
  | Infinity true, _ => true
  | _, Infinity false => true
  | Finite p, Finite q => Qle_bool p q
  | _, _ => false
  end.

Definition cell_rank (c : cell) : nat :=
  match c with
  | Int _ => 0
  | Float _ => 1
  | Bool _ => 2
  | Str _ => 3
  | NaN => 4
  end.

Definition cell_leb (a b : cell) : bool :=
  match a, b with
  | Int x, Int y => (x <=? y)%Z
  | Float x, Float y => float_leb x y
  | Bool x, Bool y => implb x y
  | Str x, Str y => String.leb x y
  | _, _ => (cell_rank a <=? cell_rank b)%nat
  end.

Definition cell_ltb (a b : cell) : bool := cell_leb a b && negb (cell_leb b a).

(** Several sort keys compare lexicographically. *)
Fixpoint lex_leb (k1 k2 : list cell) : bool :=
  match k1, k2 with
  | a :: k1', b :: k2' => if cell_eqb a b then lex_leb k1' k2' else cell_leb a b
  | _, _ => true
  end.

Fixpoint insert_by {A} (leb : A -> A -> bool) (x : A) (l : list A) : list A :=
  match l with
  | [] => [x]
  | y :: l' => if leb x y then x :: y :: l' else y :: insert_by leb x l'
  end.

(** A stable sort: an element goes in front of the first one it does not
    exceed, and elements are inserted last to first. *)
Fixpoint sort_by {A} (leb : A -> A -> bool) (l : list A) : list A :=
  match l with
  | [] => []
  | x :: l' => insert_by leb x (sort_by leb l')
  end.

(** A row together with its label. *)
Definition labelled_rows (df : DataFrame) : list (cell * list cell) :=
  combine (index df) (values df).

Definition with_rows (df : DataFrame) (rows : list (cell * list cell)) : DataFrame :=
  mk_frame (index_name df) (map fst rows) (columns df) (map snd rows).

(** [df.sort_index()] *)
Definition sort_index (df : DataFrame) : DataFrame :=
  with_rows df (sort_by (fun a b => cell_leb (fst a) (fst b)) (labelled_rows df)).

Fixpoint positions (names : list cell) (labels : list cell) : option (list nat) :=
  match names with
  | [] => Some []
  | n :: names' =>
      match position n labels, positions names' labels with
      | Some i, Some js => Some (i :: js)
      | _, _ => None
      end
  end.

Definition sort_key (ps : list nat) (r : cell * list cell) : list cell :=
  map (fun i => nth i (snd r) NaN) ps.

(** [df.sort_values(by=names)] *)
Definition sort_values (names : list cell) (df : DataFrame) : result DataFrame :=
  match positions names (columns df) with
  | None => Raised (KeyError "sort key is not a column")
  | Some ps =>
      Returned (with_rows df
        (sort_by (fun a b => lex_leb (sort_key ps a) (sort_key ps b))
           (labelled_rows df)))
  end.

Fixpoint map_result {A B} (f : A -> result B) (l : list A) : result (list B) :=
  match l with
  | [] => Returned []
  | x :: l' =>
      let* y := f x in
      let* ys := map_result f l' in
      Returned (y :: ys)
  end.

Definition update_nth {A} (i : nat) (f : A -> result A) (l : list A) : result (list A) :=
  match l !! i with
  | None => Returned l
  | Some x => let* y := f x in Returned (<[i := y]> l)
  end.

(** [df[name] = df[name].apply(f)] *)
Definition apply_column (name : cell) (f : cell -> result cell) (df : DataFrame)
  : result DataFrame :=
  match position name (columns df) with
  | None => Raised (KeyError "column not found")
  | Some i =>
      let* rows := map_result (update_nth i f) (values df) in
      Returned (mk_frame (index_name df) (index df) (columns df) rows)
  end.

End Pandas.

(** ** The loaders of [utils.py] *)

Import Pandas.

(** The files the loaders can see: path to content. *)
Abbreviation file_system := (gmap string string).

(** Python truth values of the optional arguments. *)
Definition truthy_path (p : option string) : bool :=
  match p with
  | Some s => negb (String.eqb s EmptyString)
  | None => false
  end.

Definition truthy_int (n : option Z) : bool :=
  match n with
  | Some z => negb (z =? 0)%Z
  | None => false
  end.

Definition default_args : read_csv_args :=
  mk_args (Some O) ","%char None None None None.

(** [pd.read_table(path, ...)] and [pd.read_csv(path, ...)] on a path. *)
Definition read_path (fs : file_system) (path : string) (kw : read_csv_args)
  : result DataFrame :=
  match fs !! path with
  | None => Raised (FileNotFoundError path)
  | Some text => read_csv text kw
  end.

(** The unary minus that the loader applies to the boolean array is its
    element-wise negation, as in the numpy releases the code was written
    for. *)
Definition load_expression_dataset (fs : file_system) (path_to_file : string)
  : result DataFrame :=
  let* expression_dataset :=
    read_path fs path_to_file (mk_args (Some O) Text.tab None None None None) in
  match columns expression_dataset with
  | [] => Raised (KeyError "index 0 is out of bounds")
  | index_on :: _ =>
      let* expression_dataset := set_index index_on expression_dataset in
      let* found := index_str_contains "?"%char expression_dataset in
      let expression_dataset :=
        select_rows (map negb found) expression_dataset in
      let expression_dataset := sort_index expression_dataset in
      Returned expression_dataset
  end.

(** [x.split(";")] on a cell of the [genes] column: only text has the
    method. *)
Definition split_genes (x : cell) : result (list string) :=
  match x with
  | Str s => Returned (Text.split ";"%char s)
  | Int _ => Raised (AttributeError "'int' object has no attribute 'split'")
  | Float _ | NaN =>
      Raised (AttributeError "'float' object has no attribute 'split'")
  | Bool _ => Raised (AttributeError "'bool' object has no attribute 'split'")
  end.

(** [shorten_pathway_names(x)] when a shortening function was given; the
    function is one on text. *)
Definition shorten (shorten_pathway_names : option (string -> string)) (x : cell)
  : result cell :=
  match shorten_pathway_names with
  | Some f =>
      match x with
      | Str s => Returned (Str (f s))
      | _ => Raised (TypeError "pathway name is not a string")
      end
  | None => Returned x
  end.

(** The loop over [iterrows()], on the rows still to visit and the
    dictionary built so far. *)
Fixpoint iterrows_loop (shorten_pathway_names : option (string -> string))
    (rows : list (cell * list string)) (pathway_definitions_map : gmap cell (gset string))
  : result (gmap cell (gset string)) :=
  match rows with
  | [] => Returned pathway_definitions_map
  | (index, genes) :: rows' =>
      let* index := shorten shorten_pathway_names index in
      iterrows_loop shorten_pathway_names rows'
        (<[index := list_to_set genes]> pathway_definitions_map)
  end.

(** The rows that [iterrows()] yields: the [pw] label and the split
    [genes] cell of each row. *)
Definition pathway_rows (fs : file_system) (path_to_file : string)
  : result (list (cell * list string)) :=
  let* pathway_definitions :=
    read_path fs path_to_file
      (mk_args None Text.tab None None (Some ["pw"; "size"; "genes"]) None) in
  match column (Str "genes") pathway_definitions with
  | None => Raised (KeyError "genes")
  | Some col =>
      let* genes := map_result split_genes col in
      let* pathway_definitions := set_index (Str "pw") pathway_definitions in
      Returned (combine (index pathway_definitions) genes)
  end.

Definition load_pathway_definitions (fs : file_system) (path_to_file : string)
    (shorten_pathway_names : option (string -> string))
  : result (gmap cell (gset string)) :=
  let* rows := pathway_rows fs path_to_file in
  iterrows_loop shorten_pathway_names rows ∅.

(** The table before the final sort: the three columns read, with the
    pathway names shortened when a function was given. *)
Definition significant_pathways_unsorted (fs : file_system) (path_to_file : string)
    (shorten_pathway_names : option (string -> string)) : result DataFrame :=
  let* significant_pathways :=
    read_path fs path_to_file
      (mk_args (Some O) Text.tab None None None
         (Some ["feature"; "side"; "pathway"])) in
  match shorten_pathway_names with
  | Some _ =>
      apply_column (Str "pathway") (shorten shorten_pathway_names)
        significant_pathways
  | None => Returned significant_pathways
  end.

Definition load_significant_pathways_file (fs : file_system) (path_to_file : string)
    (shorten_pathway_names : option (string -> string)) : result DataFrame :=
  let* significant_pathways :=
    significant_pathways_unsorted fs path_to_file shorten_pathway_names in
  sort_values [Str "feature"; Str "side"] significant_pathways.

(** *** The weight matrix *)

(** The variables of the scanning loop. *)
Record scan_state := mk_scan {
  st_file : File.text_file;
  st_pos : nat;
  st_data : list string
}.

(** One pass through the body of the [while] loop. *)
Definition scan_step (st : scan_state) : scan_state :=
  let pos := File.tell (st_file st) in
  let '(current_line, file) := File.readline (st_file st) in
  mk_scan file pos (Text.split Text.tab current_line).

(** The [while] loop, for at most [fuel] passes; [None] when the loop
    condition still holds after them. *)
Fixpoint scan_loop (fuel : nat) (n_features : Z) (st : scan_state)
  : option scan_state :=
  if (Z.of_nat (length (st_data st)) <? n_features)%Z then
    match fuel with
    | O => None
    | S fuel' => scan_loop fuel' n_features (scan_step st)
    end
  else Some st.

(** The loop variables on entry: [pos = 0] and the first line read. *)
Definition scan_start (content : string) : scan_state :=
  let file := File.open content in
  let pos := O in
  let '(current_line, file) := File.readline file in
  let data := Text.split Text.tab current_line in
  mk_scan file pos data.

Definition _weight_matrix_file_skip_rows (fuel : nat) (fs : file_system)
    (path_to_file : string) (n_features : Z) (kwargs : read_csv_args)
  : result DataFrame :=
  match fs !! path_to_file with
  | None => Raised (FileNotFoundError path_to_file)
  | Some content =>
      if (String.length content =? 0)%nat
      then Raised (ValueError (path_to_file +:+ " is empty."))
      else
        match scan_loop fuel n_features (scan_start content) with
        | None => Running
        | Some st =>
            let file := File.seek (st_file st) (st_pos st) in
            read_csv (File.remaining file) kwargs
        end
  end.

(** The dictionary [read_csv_args] that the loader builds: no header, tab
    separator, column 0 as row labels unless a genes file is given, and
    the key [nrows] only when [n_genes] is true (neither absent nor 0). *)
Definition weight_matrix_args (n_genes : option Z)
    (path_to_genes_file : option string) : read_csv_args :=
  let read_csv_args :=
    mk_args None Text.tab
      (if negb (truthy_path path_to_genes_file) then Some O else None)
      None None None in
  if truthy_int n_genes
  then mk_args (header read_csv_args) (sep read_csv_args)
         (index_col read_csv_args) n_genes None None
  else read_csv_args.

(** The arguments of the call that reads the genes file. *)
Definition genes_args : read_csv_args :=
  mk_args None ","%char None None (Some ["genes"]) None.

Definition load_weight_matrix (fuel : nat) (fs : file_system)
    (path_to_file : string) (n_features : Z) (n_genes : option Z)
    (path_to_genes_file : option string) : result DataFrame :=
  let read_csv_args := weight_matrix_args n_genes path_to_genes_file in
  let* weight_matrix :=
    _weight_matrix_file_skip_rows fuel fs path_to_file n_features read_csv_args in
  if truthy_path path_to_genes_file then
    let* genes_df :=
      read_path fs (default EmptyString path_to_genes_file) genes_args in
    let weight_matrix := concat_columns weight_matrix genes_df in
    set_index (Str "genes") weight_matrix
  else
    let weight_matrix := rename_index (Str "genes") weight_matrix in
    set_columns (range_index (Z.to_nat n_features)) weight_matrix.

(** ** Vocabulary of the statements *)

(** A line the scanning loop passes over, and one it stops at. *)
Definition narrow (n_features : Z) (line : string) : Prop :=
  (Z.of_nat (Text.field_count Text.tab line) < n_features)%Z.

Definition wide (n_features : Z) (line : string) : Prop :=
  (n_features <= Z.of_nat (Text.field_count Text.tab line))%Z.

(** The loop variables when the line at offset [p] has just been read. *)
Definition at_line (content : string) (p : nat) (line : string) : scan_state :=
  mk_scan (File.mk_file content (p + String.length line)) p
    (Text.split Text.tab line).

(** What is left of the file holds narrow lines only. *)
Definition narrow_rest (n_features : Z) (f : File.text_file) : Prop :=
  Forall (narrow n_features) (Text.file_lines (File.remaining f)).

(** The loop condition holds and cannot stop holding. *)
Definition still_scanning (n_features : Z) (st : scan_state) : Prop :=
  (Z.of_nat (length (st_data st)) < n_features)%Z
  /\ narrow_rest n_features (st_file st).

(** The number of rows the parser reads from [m] data rows: all of them
    when [n_genes] is absent or 0, else at most [n_genes]. *)
Definition rows_read (n_genes : option Z) (m : nat) : nat :=
  match n_genes with
  | Some g => if (g =? 0)%Z then m else Nat.min (Z.to_nat g) m
  | None => m
  end.

(** A usable [n_genes]: absent, or not negative. *)
Definition valid_n_genes (n_genes : option Z) : Prop :=
  match n_genes with
  | Some g => (0 <= g)%Z
  | None => True
  end.

(** A line the parser does not skip. *)
Definition data_line (line : string) : Prop :=
  Pandas.blank_line Text.tab (Text.chomp line) = false.

(** ** Sample files *)

Module Samples.

Import Text.

(** An expression file: a header and three genes, one of them ambiguous. *)
Definition expression : string :=
  row ["gene"; "s1"] +:+ row ["b"; "1"] +:+ row ["a?"; "2"] +:+ row ["a"; "3"].

(** Pathway definitions; the first and the last name share their first
    four characters. *)
Definition pathways : string :=
  row ["long one"; "2"; "g1;g2"] +:+ row ["other"; "1"; "g3"]
  +:+ row ["long two"; "2"; "g4;g5"].

(** Significant pathways, with a column the loader does not read and two
    rows that share feature and side. *)
Definition significant : string :=
  row ["pathway"; "feature"; "side"; "extra"]
  +:+ row ["p1"; "10"; "pos"; "x"] +:+ row ["p2"; "9"; "pos"; "x"]
  +:+ row ["p3"; "10"; "neg"; "y"] +:+ row ["p4"; "9"; "pos"; "z"].

(** A weight matrix with row labels, after a line of metadata. *)
Definition weights_labelled : string :=
  row ["model v1"] +:+ row ["a"; "1"; "2"] +:+ row ["b"; "3"; "4"].

(** A weight matrix without row labels, and the genes that label it. *)
Definition weights_bare : string :=
  row ["model v1"] +:+ row ["1"; "2"] +:+ row ["3"; "4"].

Definition genes : string := row ["PA0001"] +:+ row ["PA0002"].

Definition files : file_system :=
  <["expression.tsv" := expression]>
    (<["pathways.tsv" := pathways]>
       (<["significant.tsv" := significant]>
          (<["labelled.tsv" := weights_labelled]>
             (<["bare.tsv" := weights_bare]>
                (<["genes.txt" := genes]> ∅))))).

(** A shortening function: the first four characters of the name. *)
Definition first_four (s : string) : string := String.substring 0 4 s.

End Samples.

(** ** Vocabulary of the further properties *)

(** Lines 22-24 of [load_expression_dataset]: the file as read, indexed
    on its first column. *)
Definition expression_indexed (fs : file_system) (path_to_file : string)
  : result Pandas.DataFrame :=
  let* expression_dataset :=
    read_path fs path_to_file
      (Pandas.mk_args (Some O) Text.tab None None None None) in
  match Pandas.columns expression_dataset with
  | [] => Raised (KeyError "index 0 is out of bounds")
  | index_on :: _ => Pandas.set_index index_on expression_dataset
  end.

(** A labelled row whose label is text without the character [?]. *)
Definition unambiguous (r : Pandas.cell * list Pandas.cell) : bool :=
  match fst r with
  | Pandas.Str s => negb (Text.contains_char "?"%char s)
  | _ => false
  end.

(** The names [load_significant_pathways_file] asks the parser for. *)
Definition required_columns : list Pandas.cell :=
  [Pandas.Str "feature"; Pandas.Str "side"; Pandas.Str "pathway"].



(** The arguments of the call that reads the pathway definitions. *)
Definition pathway_args : Pandas.read_csv_args :=
  Pandas.mk_args None Text.tab None None (Some ["pw"; "size"; "genes"]) None.






(** The counts kept while a header line is read are all positive. *)
Definition counted (counts : gmap string nat) : Prop :=
  forall x n, counts !! x = Some n -> (0 < n)%nat.

(** The names of [D] that are at least as long as [name]. *)
Definition at_least (name : string) (D : gset string) : gset string :=
  filter (fun k => (String.length name <= String.length k)%nat) D.

Module MoreSamples.

Import Text.

(** A genes file with fewer identifiers than [Samples.weights_bare] has
    rows. *)
Definition one_gene : string := row ["PA0001"].

(** A weight matrix followed by a line that is not part of it. *)
Definition weights_with_trailer : string :=
  row ["model v1"] +:+ row ["a"; "1"; "2"] +:+ row ["b"; "3"; "4"]
  +:+ row ["trained"; "on"; "950"; "samples"].

(** Pathway definitions whose second line has no genes field. *)
Definition pathways_short_row : string :=
  row ["p1"; "2"; "g1;g2"] +:+ row ["p2"; "0"].

Definition files : file_system :=
  <["one_gene.txt" := one_gene]>
    (<["trailer.tsv" := weights_with_trailer]>
       (<["short.tsv" := pathways_short_row]> Samples.files)).

End MoreSamples.

Module TypedSamples.

Import Text.

(** Gene identifiers that read as numbers. *)
Definition genes_numeric : string := row ["007"] +:+ row ["010"].

(** A weight matrix with row labels and fractional weights. *)
Definition weights_float : string :=
  row ["model v1"] +:+ row ["PA0001"; "0.5"; "-1.25"]
  +:+ row ["PA0002"; "1e-3"; "2"].

(** Significant pathways under a header that repeats a name. *)
Definition significant_repeated : string :=
  row ["feature"; "feature"; "side"; "pathway"]
  +:+ row ["2"; "7"; "pos"; "p1"] +:+ row ["1"; "8"; "neg"; "p2"].

Definition files : file_system :=
  <["genes_numeric.txt" := genes_numeric]>
    (<["bare.tsv" := Samples.weights_bare]>
       (<["float.tsv" := weights_float]>
          (<["repeated.tsv" := significant_repeated]>
             (<["pathways.tsv" := Samples.pathways]> ∅)))).

End TypedSamples.

(** * Properties *)

(** ** Facts about text *)

Section TextFacts.

Import Text.

Local Arguments String.append !_ _ / : simpl nomatch.

Lemma file_lines_nil (s : string) : file_lines s = [] -> s = EmptyString.
Proof.
  destruct s as [|c r]; [reflexivity|]. simpl.
  destruct (Ascii.eqb c newline); [discriminate|].
  destruct (file_lines r); discriminate.
Qed.

Lemma file_lines_cons (s l : string) (tl : list string) :
  file_lines s = l :: tl ->
  exists r, read_line s = (l, r) /\ file_lines r = tl /\ s = l +:+ r.
Proof.
  revert l tl. induction s as [|c r IH]; intros l tl H; simpl in H.
  - discriminate.
  - simpl. destruct (Ascii.eqb c newline).
    + inversion H; subst. exists r. repeat split.
    + destruct (file_lines r) as [|l0 ls] eqn:E.
      * inversion H; subst. apply file_lines_nil in E. subst r.
        exists EmptyString. repeat split.
      * inversion H; subst. destruct (IH l0 tl eq_refl) as (r' & Hr & Hl & Hs).
        exists r'. rewrite Hr. repeat split; [assumption|].
        rewrite Hs. reflexivity.
Qed.

Lemma file_lines_nonempty (s : string) : Forall (fun l => l <> EmptyString) (file_lines s).
Proof.
  induction s as [|c r IH]; simpl; [constructor|].
  destruct (Ascii.eqb c newline).
  - constructor; [discriminate|assumption].
  - destruct (file_lines r) as [|l ls].
    + constructor; [discriminate|constructor].
    + inversion IH; subst. constructor; [discriminate|assumption].
Qed.

Lemma concat_file_lines (s : string) : concat_str (file_lines s) = s.
Proof.
  induction s as [|c r IH]; simpl; [reflexivity|].
  destruct (Ascii.eqb c newline); simpl; [congruence|].
  destruct (file_lines r) as [|l ls]; simpl in *; congruence.
Qed.

Lemma drop_str_add (n m : nat) (s : string) :
  drop_str (n + m) s = drop_str m (drop_str n s).
Proof.
  revert s. induction n as [|n IH]; intros s; simpl; [reflexivity|].
  destruct s; [destruct m; reflexivity|apply IH].
Qed.

Lemma drop_str_app (l r : string) : drop_str (String.length l) (l +:+ r) = r.
Proof. induction l; simpl; [destruct r; reflexivity|assumption]. Qed.

Lemma length_app_str (a b : string) :
  String.length (a +:+ b) = (String.length a + String.length b)%nat.
Proof. induction a; simpl; congruence. Qed.

Lemma append_assoc_str (a b c : string) : a +:+ (b +:+ c) = (a +:+ b) +:+ c.
Proof. induction a; simpl; congruence. Qed.

Lemma concat_str_app (xs ys : list string) :
  concat_str (xs ++ ys) = concat_str xs +:+ concat_str ys.
Proof.
  induction xs as [|x xs IH]; simpl; [reflexivity|].
  rewrite IH. apply append_assoc_str.
Qed.

Lemma split_length_pos (sep : ascii) (s : string) : (1 <= length (split sep s))%nat.
Proof.
  induction s as [|c r IH]; simpl; [lia|].
  destruct (Ascii.eqb c sep); simpl; [lia|].
  destruct (split sep r); simpl in *; lia.
Qed.

End TextFacts.

(** ** The scanning loop *)

Section Scan.

Import Text File.

Local Arguments String.append !_ _ / : simpl nomatch.

Variable n_features : Z.

Lemma scan_step_at_line (content : string) (p : nat) (line next : string) (tl : list string) :
  file_lines (drop_str p content) = line :: next :: tl ->
  scan_step (at_line content p line) = at_line content (p + String.length line) next.
Proof.
  intros H. destruct (file_lines_cons _ _ _ H) as (r & _ & Hr & Hs).
  destruct (file_lines_cons _ _ _ Hr) as (r' & Hn & _ & _).
  unfold scan_step, at_line, readline, tell, remaining. simpl.
  rewrite drop_str_add, Hs, drop_str_app, Hn. reflexivity.
Qed.

Lemma scan_loop_finds (content : string) (pre : list string) :
  forall (p : nat) (l : string) (post : list string) (fuel : nat),
  file_lines (drop_str p content) = pre ++ l :: post ->
  Forall (narrow n_features) pre -> wide n_features l -> (length pre <= fuel)%nat ->
  scan_loop fuel n_features (at_line content p (hd l pre))
  = Some (at_line content (p + String.length (concat_str pre)) l).
Proof.
  induction pre as [|x pre IH]; intros p l post fuel Hl Hn Hw Hf.
  - simpl. rewrite Nat.add_0_r.
    destruct fuel; simpl; unfold wide, field_count in Hw;
      destruct (Z.ltb_spec (Z.of_nat (length (split tab l))) n_features);
      first [lia | reflexivity].
  - destruct fuel as [|fuel]; [simpl in Hf; lia|].
    inversion Hn as [|? ? Hx Hpre]; subst.
    simpl hd. simpl scan_loop.
    unfold narrow, field_count in Hx.
    destruct (Z.ltb_spec (Z.of_nat (length (split tab x))) n_features); [|lia].
    assert (Hnext : exists tl, pre ++ l :: post = hd l pre :: tl)
      by (destruct pre; simpl; eauto).
    destruct Hnext as [tl Htl].
    simpl in Hl. rewrite Htl in Hl.
    rewrite (scan_step_at_line _ _ _ _ _ Hl).
    destruct (file_lines_cons _ _ _ Hl) as (r & _ & Hr & Hs).
    rewrite (IH (p + String.length x)%nat l post fuel).
    + simpl concat_str. rewrite length_app_str, Nat.add_assoc. reflexivity.
    + rewrite drop_str_add, Hs, drop_str_app, Hr. symmetry. exact Htl.
    + assumption.
    + assumption.
    + simpl in Hf. lia.
Qed.

End Scan.

Section ScanFacts.

Import Text File.

Local Arguments String.append !_ _ / : simpl nomatch.

Variable n_features : Z.

Lemma file_lines_drop (pre : list string) :
  forall (s : string) (rest : list string),
  file_lines s = pre ++ rest ->
  file_lines (drop_str (String.length (concat_str pre)) s) = rest.
Proof.
  induction pre as [|x pre IH]; intros s rest H; simpl in *; [assumption|].
  destruct (file_lines_cons _ _ _ H) as (r & _ & Hr & Hs).
  rewrite length_app_str, drop_str_add, Hs, drop_str_app. apply IH. exact Hr.
Qed.

Lemma scan_start_at_line (content l : string) (tl : list string) :
  file_lines content = l :: tl -> scan_start content = at_line content 0 l.
Proof.
  intros H. destruct (file_lines_cons _ _ _ H) as (r & Hl & _ & _).
  unfold scan_start, at_line, readline, remaining, open. simpl.
  rewrite Hl. reflexivity.
Qed.

Lemma readline_narrow (f : text_file) :
  (1 < n_features)%Z -> narrow_rest n_features f ->
  narrow n_features (fst (readline f)) /\ narrow_rest n_features (snd (readline f)).
Proof.
  intros Hn Hf. unfold narrow_rest, readline, remaining in *. simpl.
  destruct (file_lines (drop_str (cursor f) (content f))) as [|l tl] eqn:E.
  - apply file_lines_nil in E. rewrite drop_str_add, E. simpl.
    split; [unfold narrow, field_count; simpl; lia|constructor].
  - inversion Hf as [|? ? Hnl Hntl]; subst.
    destruct (file_lines_cons _ _ _ E) as (r & Hl & Hr & Hs).
    rewrite drop_str_add, Hl. simpl. rewrite Hs, drop_str_app, Hr.
    split; assumption.
Qed.

Lemma scan_step_still_scanning (st : scan_state) :
  (1 < n_features)%Z -> still_scanning n_features st -> still_scanning n_features (scan_step st).
Proof.
  intros Hn [_ Hf]. destruct (readline_narrow _ Hn Hf) as [Hl Hr].
  unfold scan_step. destruct (readline (st_file st)) as [line f'].
  split; assumption.
Qed.

Lemma scan_loop_still_scanning (fuel : nat) :
  forall st : scan_state,
  (1 < n_features)%Z -> still_scanning n_features st -> scan_loop fuel n_features st = None.
Proof.
  induction fuel as [|fuel IH]; intros st Hn Hst; simpl;
    destruct Hst as [Hd Hf];
    destruct (Z.ltb_spec (Z.of_nat (length (st_data st))) n_features); try lia.
  - reflexivity.
  - apply IH; [assumption|]. apply scan_step_still_scanning; [assumption|].
    split; assumption.
Qed.

Lemma scan_start_still_scanning (content : string) :
  content <> EmptyString ->
  Forall (narrow n_features) (file_lines content) ->
  (1 < n_features)%Z /\ still_scanning n_features (scan_start content).
Proof.
  intros Hne Hall.
  assert (Hn : (1 < n_features)%Z).
  { destruct (file_lines content) as [|l tl] eqn:E.
    - apply file_lines_nil in E. contradiction.
    - inversion Hall as [|? ? Hl _]; subst. unfold narrow, field_count in Hl.
      pose proof (split_length_pos tab l). lia. }
  split; [assumption|].
  assert (Hopen : narrow_rest n_features (open content)) by exact Hall.
  destruct (readline_narrow _ Hn Hopen) as [Hl Hr].
  unfold scan_start. destruct (readline (open content)) as [line f'].
  split; assumption.
Qed.

End ScanFacts.

(** ** The weight-matrix helper *)

Section SkipRows.

Import Text File.

Local Arguments String.append !_ _ / : simpl nomatch.

Lemma nonempty_length (s : string) :
  s <> EmptyString -> (String.length s =? 0)%nat = false.
Proof. destruct s; [contradiction|reflexivity]. Qed.

Lemma skip_rows_found (fuel : nat) (fs : file_system) (path content : string)
    (n_features : Z) (kwargs : read_csv_args) (pre : list string) (l : string)
    (post : list string) :
  fs !! path = Some content ->
  file_lines content = pre ++ l :: post ->
  Forall (narrow n_features) pre -> wide n_features l ->
  (length pre <= fuel)%nat ->
  scan_loop fuel n_features (scan_start content)
  = Some (at_line content (String.length (concat_str pre)) l)
  /\ _weight_matrix_file_skip_rows fuel fs path n_features kwargs
     = read_csv (concat_str (l :: post)) kwargs.
Proof.
  intros Hfs Hl Hn Hw Hf.
  assert (Hscan : scan_loop fuel n_features (scan_start content)
                  = Some (at_line content (String.length (concat_str pre)) l)).
  { assert (Hhd : exists tl, file_lines content = hd l pre :: tl)
      by (rewrite Hl; destruct pre; simpl; eauto).
    destruct Hhd as [tl Hhd]. rewrite (scan_start_at_line _ _ _ Hhd).
    apply (scan_loop_finds n_features content pre 0 l post fuel); assumption. }
  split; [exact Hscan|].
  unfold _weight_matrix_file_skip_rows. rewrite Hfs, nonempty_length, Hscan.
  - unfold remaining, seek, at_line. simpl.
    rewrite <- (concat_file_lines (drop_str _ content)).
    rewrite (file_lines_drop pre content (l :: post) Hl). reflexivity.
  - intros ->. destruct pre; discriminate.
Qed.

Lemma first_wide_line (n_features : Z) (ls : list string) :
  Exists (wide n_features) ls ->
  exists pre l post,
    ls = pre ++ l :: post /\ Forall (narrow n_features) pre /\ wide n_features l.
Proof.
  induction ls as [|x ls IH]; intros H; [inversion H|].
  destruct (Z.lt_ge_cases (Z.of_nat (field_count tab x)) n_features) as [Hx|Hx].
  - destruct IH as (pre & l & post & -> & Hpre & Hl).
    + inversion H as [? ? Hw|]; subst; [unfold wide in Hw; lia|assumption].
    + exists (x :: pre), l, post. repeat split; [|assumption].
      constructor; assumption.
  - exists [], x, ls. repeat split; [constructor|exact Hx].
Qed.

Lemma skip_rows_at_first_wide_line (fs : file_system)
    (path content : string) (n_features : Z) (kwargs : read_csv_args)
    (pre : list string) (l : string) (post : list string) :
  fs !! path = Some content ->
  file_lines content = pre ++ l :: post ->
  Forall (narrow n_features) pre -> wide n_features l ->
  exists st : scan_state,
    (forall fuel, (length pre <= fuel)%nat ->
       scan_loop fuel n_features (scan_start content) = Some st)
    /\ st_pos st = String.length (concat_str pre)
    /\ content = concat_str pre +:+ remaining (seek (st_file st) (st_pos st))
    /\ remaining (seek (st_file st) (st_pos st)) = concat_str (l :: post)
    /\ fst (readline (seek (st_file st) (st_pos st))) = l
    /\ (forall fuel, (length pre <= fuel)%nat ->
          _weight_matrix_file_skip_rows fuel fs path n_features kwargs
          = read_csv (concat_str (l :: post)) kwargs).
Proof.
  intros Hfs Hl Hn Hw.
  exists (at_line content (String.length (concat_str pre)) l).
  assert (Hrest : drop_str (String.length (concat_str pre)) content
                  = concat_str (l :: post)).
  { rewrite <- (concat_file_lines (drop_str _ content)).
    rewrite (file_lines_drop pre content (l :: post) Hl). reflexivity. }
  split; [|split; [|split; [|split; [|split]]]].
  - intros fuel Hf.
    apply (skip_rows_found fuel fs path content n_features kwargs pre l post);
      assumption.
  - reflexivity.
  - unfold remaining, seek, at_line. simpl. rewrite Hrest.
    rewrite <- (concat_file_lines content) at 1. rewrite Hl.
    apply concat_str_app.
  - exact Hrest.
  - unfold readline, remaining, seek, at_line. simpl.
    destruct (file_lines_cons _ _ _ (file_lines_drop pre content (l :: post) Hl))
      as (r & Hr & _ & _).
    rewrite Hr. reflexivity.
  - intros fuel Hf.
    apply (skip_rows_found fuel fs path content n_features kwargs pre l post);
      assumption.
Qed.

(** C2: when some line of the file has at least [n_features] fields, the
    lines split into those before the first such line, all with fewer
    fields, that line, and the rest; the helper's scan ends there: the
    position it rewinds to is the total length of the lines before, what
    the parser is given starts with that line and holds none of the
    lines before it. *)
Theorem skip_rows_starts_at_first_wide_line (fs : file_system)
    (path content : string) (n_features : Z) (kwargs : read_csv_args) :
  fs !! path = Some content ->
  Exists (wide n_features) (file_lines content) ->
  exists (pre : list string) (l : string) (post : list string) (st : scan_state),
    file_lines content = pre ++ l :: post
    /\ Forall (narrow n_features) pre
    /\ wide n_features l
    /\ (forall fuel, (length pre <= fuel)%nat ->
          scan_loop fuel n_features (scan_start content) = Some st)
    /\ st_pos st = String.length (concat_str pre)
    /\ content = concat_str pre +:+ remaining (seek (st_file st) (st_pos st))
    /\ remaining (seek (st_file st) (st_pos st)) = concat_str (l :: post)
    /\ fst (readline (seek (st_file st) (st_pos st))) = l
    /\ (forall fuel, (length pre <= fuel)%nat ->
          _weight_matrix_file_skip_rows fuel fs path n_features kwargs
          = read_csv (concat_str (l :: post)) kwargs).
Proof.
  intros Hfs Hex.
  destruct (first_wide_line _ _ Hex) as (pre & l & post & Hl & Hpre & Hw).
  destruct (skip_rows_at_first_wide_line fs path content n_features kwargs
              pre l post Hfs Hl Hpre Hw) as (st & H).
  exists pre, l, post, st. repeat (split; [assumption|]). exact H.
Qed.

Lemma skip_rows_starts_at_first_wide_line_witness :
  let content := row ["junk"] +:+ row ["a"; "1"] in
  let fs : file_system := {[ "w" := content ]} in
  let kwargs := mk_args None tab None None None None in
  fs !! "w" = Some content
  /\ Exists (wide 2) (file_lines content)
  /\ exists (pre : list string) (l : string) (post : list string)
        (st : scan_state),
      file_lines content = pre ++ l :: post
      /\ Forall (narrow 2) pre
      /\ wide 2 l
      /\ (forall fuel, (length pre <= fuel)%nat ->
            scan_loop fuel 2 (scan_start content) = Some st)
      /\ st_pos st = String.length (concat_str pre)
      /\ content = concat_str pre +:+ remaining (seek (st_file st) (st_pos st))
      /\ remaining (seek (st_file st) (st_pos st)) = concat_str (l :: post)
      /\ fst (readline (seek (st_file st) (st_pos st))) = l
      /\ (forall fuel, (length pre <= fuel)%nat ->
            _weight_matrix_file_skip_rows fuel fs "w" 2 kwargs
            = read_csv (concat_str (l :: post)) kwargs).
Proof.
  intros content fs kwargs.
  assert (H1 : fs !! "w" = Some content) by reflexivity.
  assert (H2 : Exists (wide 2) (file_lines content))
    by (apply Exists_cons_tl, Exists_cons_hd; unfold wide; vm_compute;
        discriminate).
  repeat (split; [assumption|]).
  exact (skip_rows_starts_at_first_wide_line fs "w" content 2 kwargs H1 H2).
Defined.

(** C3: in a non-empty file none of whose lines has [n_features] fields
    the scan never ends: at the end of the file [readline] gives the
    empty string, whose split has one field, so the loop condition holds
    on every later pass and the call is still running after any number
    of them. *)
Theorem scan_never_stops_without_wide_line (fs : file_system)
    (path content : string) (n_features : Z) (n_genes : option Z)
    (path_to_genes_file : option string) :
  fs !! path = Some content ->
  content <> EmptyString ->
  Forall (narrow n_features) (file_lines content) ->
  forall fuel : nat,
    scan_loop fuel n_features (scan_start content) = None
    /\ load_weight_matrix fuel fs path n_features n_genes path_to_genes_file
       = Running.
Proof.
  intros Hfs Hne Hall fuel.
  destruct (scan_start_still_scanning n_features content Hne Hall) as [Hn Hst].
  pose proof (scan_loop_still_scanning n_features fuel _ Hn Hst) as Hscan.
  split; [exact Hscan|].
  unfold load_weight_matrix, _weight_matrix_file_skip_rows.
  rewrite Hfs, (nonempty_length _ Hne), Hscan. reflexivity.
Qed.

Lemma scan_never_stops_without_wide_line_witness :
  let content := row ["a"] in
  let fs : file_system := {[ "w" := content ]} in
  fs !! "w" = Some content
  /\ content <> EmptyString
  /\ Forall (narrow 2) (file_lines content)
  /\ forall fuel : nat,
       scan_loop fuel 2 (scan_start content) = None
       /\ load_weight_matrix fuel fs "w" 2 None None = Running.
Proof.
  intros content fs.
  assert (H1 : fs !! "w" = Some content) by reflexivity.
  assert (H2 : content <> EmptyString) by discriminate.
  assert (H3 : Forall (narrow 2) (file_lines content))
    by (repeat constructor; unfold narrow; vm_compute; reflexivity).
  repeat (split; [assumption|]).
  exact (scan_never_stops_without_wide_line fs "w" content 2 None None H1 H2 H3).
Defined.

(** C5: on a zero-byte weight-matrix file the loader raises the
    empty-file error, whose message names the file; this happens before
    any line is read or parsed, whatever the other arguments are. *)
Theorem empty_weight_matrix_file_raises (fuel : nat) (fs : file_system)
    (path : string) (n_features : Z) (n_genes : option Z)
    (path_to_genes_file : option string) (kwargs : read_csv_args) :
  fs !! path = Some EmptyString ->
  _weight_matrix_file_skip_rows fuel fs path n_features kwargs
  = Raised (ValueError (path +:+ " is empty."))
  /\ load_weight_matrix fuel fs path n_features n_genes path_to_genes_file
     = Raised (ValueError (path +:+ " is empty.")).
Proof.
  intros Hfs. unfold load_weight_matrix, _weight_matrix_file_skip_rows.
  rewrite Hfs. split; reflexivity.
Qed.

Lemma empty_weight_matrix_file_raises_witness :
  let fs : file_system := {[ "weights.tsv" := EmptyString ]} in
  fs !! "weights.tsv" = Some EmptyString
  /\ load_weight_matrix 0 fs "weights.tsv" 3 (Some (-1)%Z) (Some "missing")
     = Raised (ValueError "weights.tsv is empty.").
Proof.
  intros fs.
  assert (H1 : fs !! "weights.tsv" = Some EmptyString) by reflexivity.
  split; [assumption|].
  exact (proj2 (empty_weight_matrix_file_raises 0 fs "weights.tsv" 3
                  (Some (-1)%Z) (Some "missing") default_args H1)).
Defined.

End SkipRows.

(** ** The order on cells *)

Section CellOrder.

Import Pandas.

Lemma ascii_compare_trans_lt (a b c : ascii) :
  Ascii.compare a b = Lt -> Ascii.compare b c = Lt -> Ascii.compare a c = Lt.
Proof.
  unfold Ascii.compare. rewrite !N.compare_lt_iff. apply N.lt_trans.
Qed.

Lemma string_leb_trans (s1 : string) :
  forall s2 s3 : string,
  String.leb s1 s2 = true -> String.leb s2 s3 = true -> String.leb s1 s3 = true.
Proof.
  unfold String.leb.
  induction s1 as [|a s1 IH]; intros [|b s2] [|c s3]; simpl; try congruence.
  destruct (Ascii.compare a b) eqn:Eab; try discriminate;
    destruct (Ascii.compare b c) eqn:Ebc; try discriminate.
  - apply Ascii.compare_eq_iff in Eab, Ebc. subst.
    replace (Ascii.compare c c) with Eq
      by (symmetry; unfold Ascii.compare; apply N.compare_refl).
    apply IH.
  - apply Ascii.compare_eq_iff in Eab. subst. rewrite Ebc. reflexivity.
  - apply Ascii.compare_eq_iff in Ebc. subst. rewrite Eab. reflexivity.
  - rewrite (ascii_compare_trans_lt _ _ _ Eab Ebc). reflexivity.
Qed.

Lemma string_leb_refl (s : string) : String.leb s s = true.
Proof. destruct (String.leb_total s s); assumption. Qed.

Lemma cell_eqb_eq (a b : cell) : cell_eqb a b = true <-> a = b.
Proof. unfold cell_eqb. apply bool_decide_eq_true. Qed.

Lemma cell_eqb_refl (a : cell) : cell_eqb a a = true.
Proof. apply cell_eqb_eq. reflexivity. Qed.

Lemma float_leb_refl (x : float_value) : float_leb x x = true.
Proof.
  destruct x as [q|[|]]; simpl; try reflexivity.
  apply Qle_bool_iff, Qle_refl.
Qed.

Lemma float_leb_total (x y : float_value) :
  float_leb x y = false -> float_leb y x = true.
Proof.
  destruct x as [p|[|]], y as [q|[|]]; simpl; try congruence.
  intros H. apply Qle_bool_iff.
  destruct (Qlt_le_dec q p) as [Hlt|Hle].
  - apply Qlt_le_weak. assumption.
  - apply Qle_bool_iff in Hle. congruence.
Qed.

Lemma float_leb_trans (x y z : float_value) :
  float_leb x y = true -> float_leb y z = true -> float_leb x z = true.
Proof.
  destruct x as [p|[|]], y as [q|[|]], z as [r|[|]]; simpl; try congruence.
  rewrite !Qle_bool_iff. apply Qle_trans.
Qed.

Lemma float_leb_antisym (x y : float_value) :
  float_leb x y = true -> float_leb y x = true -> x = y.
Proof.
  destruct x as [p|[|]], y as [q|[|]]; simpl; try congruence.
  rewrite !Qle_bool_iff. intros H1 H2. f_equal.
  apply Qc_is_canon, Qle_antisym; assumption.
Qed.

Lemma cell_leb_refl (a : cell) : cell_leb a a = true.
Proof.
  destruct a as [z|x|[|]|s|]; simpl; try reflexivity.
  - apply Z.leb_refl.
  - apply float_leb_refl.
  - apply string_leb_refl.
Qed.

Lemma cell_leb_total (a b : cell) : cell_leb a b = false -> cell_leb b a = true.
Proof.
  destruct a as [z|x|[|]|s|], b as [z'|x'|[|]|s'|]; simpl; try congruence.
  - intros H. apply Z.leb_gt in H. apply Z.leb_le. lia.
  - apply float_leb_total.
  - intros H. destruct (String.leb_total s s'); congruence.
Qed.

Lemma cell_leb_trans (a b c : cell) :
  cell_leb a b = true -> cell_leb b c = true -> cell_leb a c = true.
Proof.
  destruct a as [z|x|[|]|s|], b as [z'|x'|[|]|s'|], c as [z''|x''|[|]|s''|];
    simpl; try congruence.
  - rewrite !Z.leb_le. lia.
  - apply float_leb_trans.
  - apply string_leb_trans.
Qed.

Lemma cell_leb_antisym (a b : cell) :
  cell_leb a b = true -> cell_leb b a = true -> a = b.
Proof.
  destruct a as [z|x|[|]|s|], b as [z'|x'|[|]|s'|]; simpl; try congruence.
  - rewrite !Z.leb_le. intros. f_equal. lia.
  - intros H1 H2. f_equal. apply float_leb_antisym; assumption.
  - intros H1 H2. f_equal. apply String.leb_antisym; assumption.
Qed.

Lemma lex_leb_refl (k : list cell) : lex_leb k k = true.
Proof. induction k; simpl; [reflexivity|]. rewrite cell_eqb_refl. assumption. Qed.

Lemma lex_leb_total (k1 : list cell) :
  forall k2, lex_leb k1 k2 = false -> lex_leb k2 k1 = true.
Proof.
  induction k1 as [|a k1 IH]; intros [|b k2]; simpl; try congruence.
  destruct (cell_eqb a b) eqn:E.
  - apply cell_eqb_eq in E. subst. rewrite cell_eqb_refl. apply IH.
  - intros H. destruct (cell_eqb b a) eqn:E'.
    + apply cell_eqb_eq in E'. subst. rewrite cell_eqb_refl in E. discriminate.
    + apply cell_leb_total. assumption.
Qed.

Lemma lex_leb_trans (k1 : list cell) :
  forall k2 k3,
  length k1 = length k2 -> length k2 = length k3 ->
  lex_leb k1 k2 = true -> lex_leb k2 k3 = true -> lex_leb k1 k3 = true.
Proof.
  induction k1 as [|a k1 IH]; intros [|b k2] [|c k3]; simpl; try congruence.
  intros L1 L2.
  destruct (cell_eqb a b) eqn:Eab; destruct (cell_eqb b c) eqn:Ebc;
    destruct (cell_eqb a c) eqn:Eac;
    rewrite ?cell_eqb_eq in *; subst;
    rewrite ?cell_eqb_refl in *; try discriminate; try congruence.
  - apply IH; congruence.
  - intros H1 H2. rewrite (cell_leb_antisym _ _ H1 H2), cell_eqb_refl in Eab.
    discriminate.
  - apply cell_leb_trans.
Qed.

End CellOrder.

(** ** The sort *)

Section Sort.

Import Pandas.

Context {A : Type} (leb : A -> A -> bool).

Lemma insert_by_elem (x y : A) (l : list A) :
  In y (insert_by leb x l) <-> y = x \/ In y l.
Proof.
  induction l as [|z l IH]; simpl; [intuition congruence|].
  destruct (leb x z); simpl; [intuition congruence|].
  rewrite IH. intuition congruence.
Qed.

Lemma sort_by_elem (y : A) (l : list A) : In y (sort_by leb l) <-> In y l.
Proof.
  induction l as [|x l IH]; simpl; [reflexivity|].
  rewrite insert_by_elem, IH. intuition congruence.
Qed.

Lemma insert_by_length (x : A) (l : list A) :
  length (insert_by leb x l) = S (length l).
Proof.
  induction l as [|z l IH]; simpl; [reflexivity|].
  destruct (leb x z); simpl; congruence.
Qed.

Lemma sort_by_length (l : list A) : length (sort_by leb l) = length l.
Proof.
  induction l as [|x l IH]; simpl; [reflexivity|].
  rewrite insert_by_length. congruence.
Qed.

Hypothesis leb_total : forall x y, leb x y = false -> leb y x = true.
Hypothesis leb_trans : forall x y z, leb x y = true -> leb y z = true -> leb x z = true.

Lemma insert_by_sorted (x : A) (l : list A) :
  StronglySorted (fun a b => leb a b = true) l ->
  StronglySorted (fun a b => leb a b = true) (insert_by leb x l).
Proof.
  induction 1 as [|z l Hs IH Hz]; simpl.
  - constructor; constructor.
  - destruct (leb x z) eqn:E.
    + constructor; [constructor; assumption|].
      constructor; [assumption|].
      eapply Forall_impl; [exact Hz|]. intros b Hb. eapply leb_trans; eassumption.
    + constructor; [assumption|].
      apply List.Forall_forall. intros b Hb. apply insert_by_elem in Hb.
      destruct Hb as [->|Hb]; [apply leb_total, E|].
      rewrite List.Forall_forall in Hz. apply Hz, Hb.
Qed.

Lemma sort_by_sorted (l : list A) :
  StronglySorted (fun a b => leb a b = true) (sort_by leb l).
Proof.
  induction l as [|x l IH]; simpl; [constructor|].
  apply insert_by_sorted, IH.
Qed.

End Sort.

Section Stable.

Import Pandas.

Context {A : Type} (leb : A -> A -> bool) (p : A -> bool).

(** Elements selected by [p] never exceed one another. *)
Hypothesis p_tied : forall x y, p x = true -> p y = true -> leb x y = true.

Lemma filter_insert_by (x : A) (l : list A) :
  List.filter p (insert_by leb x l) = List.filter p (x :: l).
Proof.
  induction l as [|z l IH]; simpl; [reflexivity|].
  destruct (leb x z) eqn:E; [reflexivity|].
  simpl. rewrite IH. simpl.
  destruct (p z) eqn:Ez, (p x) eqn:Ex; try reflexivity.
  rewrite (p_tied x z Ex Ez) in E. discriminate.
Qed.

Lemma filter_sort_by (l : list A) :
  List.filter p (sort_by leb l) = List.filter p l.
Proof.
  induction l as [|x l IH]; simpl; [reflexivity|].
  rewrite filter_insert_by. simpl. rewrite IH. reflexivity.
Qed.

End Stable.

Lemma strongly_sorted_lookup {A : Type} (R : A -> A -> Prop) (l : list A) :
  StronglySorted R l ->
  forall (i j : nat) (a b : A),
  (i < j)%nat -> l !! i = Some a -> l !! j = Some b -> R a b.
Proof.
  induction 1 as [|x l Hs IH Hx]; intros i j a b Hij Ha Hb.
  - destruct i; discriminate.
  - destruct j as [|j]; [lia|]. simpl in Hb.
    destruct i as [|i]; simpl in Ha.
    + inversion Ha; subst. rewrite Forall_forall in Hx. apply Hx.
      eapply list_elem_of_lookup_2. exact Hb.
    + apply (IH i j); [lia|assumption|assumption].
Qed.

Lemma lookup_map {A B : Type} (f : A -> B) (l : list A) (i : nat) (b : B) :
  map f l !! i = Some b -> exists a, l !! i = Some a /\ b = f a.
Proof.
  revert i. induction l as [|x l IH]; intros [|i] H; simpl in *; try discriminate.
  - inversion H. eauto.
  - apply IH, H.
Qed.

Lemma combine_fst_snd {A B : Type} (l : list (A * B)) :
  combine (map fst l) (map snd l) = l.
Proof. induction l as [|[a b] l IH]; simpl; congruence. Qed.

(** ** The expression and significant-pathways loaders *)

Section SortedLoaders.

Import Pandas.

Lemma keep_map_filter {A : Type} (p : A -> bool) (l : list A) :
  keep (map p l) l = List.filter p l.
Proof.
  induction l as [|x l IH]; simpl; [reflexivity|].
  destruct (p x); congruence.
Qed.

Lemma bind_returned {A B : Type} (r : result A) (k : A -> result B) (b : B) :
  bind r k = Returned b -> exists a, r = Returned a /\ k a = Returned b.
Proof. destruct r; simpl; intros H; try discriminate. eauto. Qed.

Lemma sort_values_spec (names : list cell) (df df' : DataFrame) :
  sort_values names df = Returned df' ->
  exists ps,
    positions names (columns df) = Some ps
    /\ columns df' = columns df
    /\ labelled_rows df'
       = sort_by (fun a b => lex_leb (sort_key ps a) (sort_key ps b))
           (labelled_rows df).
Proof.
  unfold sort_values. destruct (positions names (columns df)) as [ps|];
    [|discriminate].
  intros H. inversion H; subst. exists ps. repeat split.
  unfold labelled_rows at 1, with_rows. simpl. apply combine_fst_snd.
Qed.

Lemma sort_key_sorted (ps : list nat) (l : list (cell * list cell)) :
  StronglySorted (fun a b => lex_leb (sort_key ps a) (sort_key ps b) = true)
    (sort_by (fun a b => lex_leb (sort_key ps a) (sort_key ps b)) l).
Proof.
  apply sort_by_sorted.
  - intros x y. apply lex_leb_total.
  - intros x y z. apply lex_leb_trans; unfold sort_key; rewrite !length_map;
      reflexivity.
Qed.

(** C8: the table returned by [load_significant_pathways_file] is sorted
    by feature and then by side: of two rows, the earlier one has the
    smaller feature, or the same feature and a side that is not larger. *)
Theorem significant_pathways_sorted (fs : file_system) (path : string)
    (shorten_pathway_names : option (string -> string)) (df : DataFrame) :
  load_significant_pathways_file fs path shorten_pathway_names = Returned df ->
  exists features sides : list cell,
    column (Str "feature") df = Some features
    /\ column (Str "side") df = Some sides
    /\ forall (i j : nat) (fi fj si sj : cell),
         (i < j)%nat ->
         features !! i = Some fi -> features !! j = Some fj ->
         sides !! i = Some si -> sides !! j = Some sj ->
         cell_ltb fi fj = true \/ (fi = fj /\ cell_leb si sj = true).
Proof.
  unfold load_significant_pathways_file. intros H.
  apply bind_returned in H. destruct H as (df0 & _ & H).
  destruct (sort_values_spec _ _ _ H) as (ps & Hps & Hcols & Hrows).
  simpl in Hps.
  destruct (position (Str "feature") (columns df0)) as [pf|] eqn:Ef;
    [|discriminate].
  destruct (position (Str "side") (columns df0)) as [pside|] eqn:Es;
    [|discriminate].
  inversion Hps; subst ps. clear Hps.
  assert (Hvals : values df = map snd (labelled_rows df)).
  { unfold sort_values in H. simpl in H. rewrite Ef, Es in H.
    inversion H; subst. unfold labelled_rows, with_rows. simpl.
    rewrite combine_fst_snd. reflexivity. }
  unfold column. rewrite Hcols, Ef, Es. simpl.
  eexists. eexists. split; [reflexivity|]. split; [reflexivity|].
  intros i j fi fj si sj Hij Hfi Hfj Hsi Hsj.
  rewrite Hvals in Hfi, Hfj, Hsi, Hsj.
  apply lookup_map in Hfi, Hfj, Hsi, Hsj.
  destruct Hfi as (ri & Hri & ->). destruct Hfj as (rj & Hrj & ->).
  destruct Hsi as (ri' & Hri' & ->). destruct Hsj as (rj' & Hrj' & ->).
  rewrite Hri in Hri'. inversion Hri'; subst ri'.
  rewrite Hrj in Hrj'. inversion Hrj'; subst rj'.
  apply lookup_map in Hri, Hrj.
  destruct Hri as (a & Ha & ->). destruct Hrj as (b & Hb & ->).
  pose proof (sort_key_sorted [pf; pside] (labelled_rows df0)) as Hsorted.
  rewrite <- Hrows in Hsorted.
  pose proof (strongly_sorted_lookup _ _ Hsorted i j a b Hij Ha Hb) as Hab.
  simpl in Hab.
  destruct (cell_eqb (nth pf (snd a) NaN) (nth pf (snd b) NaN)) eqn:E.
  - right. apply cell_eqb_eq in E. split; [assumption|].
    destruct (cell_eqb (nth pside (snd a) NaN) (nth pside (snd b) NaN)) eqn:E2;
      [|assumption].
    apply cell_eqb_eq in E2. rewrite E2. apply cell_leb_refl.
  - left. unfold cell_ltb. rewrite Hab. simpl.
    destruct (cell_leb (nth pf (snd b) NaN) (nth pf (snd a) NaN)) eqn:E2;
      [|reflexivity].
    rewrite (cell_leb_antisym _ _ Hab E2), cell_eqb_refl in E. discriminate.
Qed.

(** C9: the sort of [load_significant_pathways_file] is stable: the rows
    that share a feature and a side come out in the order they had in
    the table read from the file. *)
Theorem significant_pathways_sort_stable (fs : file_system) (path : string)
    (shorten_pathway_names : option (string -> string)) (df : DataFrame) :
  load_significant_pathways_file fs path shorten_pathway_names = Returned df ->
  exists (df0 : DataFrame) (ps : list nat),
    significant_pathways_unsorted fs path shorten_pathway_names = Returned df0
    /\ positions [Str "feature"; Str "side"] (columns df0) = Some ps
    /\ forall key : list cell,
         List.filter (fun r => bool_decide (sort_key ps r = key)) (labelled_rows df)
         = List.filter (fun r => bool_decide (sort_key ps r = key))
             (labelled_rows df0).
Proof.
  unfold load_significant_pathways_file. intros H.
  apply bind_returned in H. destruct H as (df0 & H0 & H).
  destruct (sort_values_spec _ _ _ H) as (ps & Hps & _ & Hrows).
  exists df0, ps. split; [assumption|]. split; [assumption|].
  intros key. rewrite Hrows. apply filter_sort_by.
  intros x y Hx Hy. apply bool_decide_eq_true in Hx, Hy.
  rewrite Hx, Hy. apply lex_leb_refl.
Qed.

(** C6: the table returned by [load_expression_dataset] has no row label
    that contains the character [?], and its row labels ascend. *)
Theorem expression_dataset_filtered_and_sorted (fs : file_system)
    (path : string) (df : DataFrame) :
  load_expression_dataset fs path = Returned df ->
  (forall l : cell, In l (index df) ->
     exists s : string, l = Str s /\ Text.contains_char "?"%char s = false)
  /\ (forall (i j : nat) (a b : cell),
        (i < j)%nat -> index df !! i = Some a -> index df !! j = Some b ->
        cell_leb a b = true).
Proof.
  unfold load_expression_dataset. intros H.
  apply bind_returned in H. destruct H as (df1 & _ & H).
  destruct (columns df1) as [|index_on cols]; [discriminate|].
  apply bind_returned in H. destruct H as (df2 & _ & H).
  apply bind_returned in H. destruct H as (found & Hfound & H).
  inversion H; subst df. clear H.
  unfold index_str_contains in Hfound.
  destruct (forallb is_str (index df2)) eqn:Hstr.
  2: { destruct (existsb is_str (index df2)); discriminate. }
  inversion Hfound; subst found. clear Hfound.
  unfold sort_index, with_rows; cbn [index]. split.
  - intros l Hl. apply in_map_iff in Hl. destruct Hl as (r & <- & Hr).
    apply sort_by_elem in Hr. unfold labelled_rows, select_rows in Hr.
    cbn [index values] in Hr.
    destruct r as [l row]. apply in_combine_l in Hr. cbn [fst].
    rewrite map_map, keep_map_filter in Hr. apply filter_In in Hr.
    destruct Hr as [Hin Hq].
    rewrite forallb_forall in Hstr. specialize (Hstr l Hin).
    destruct l as [z|x|b|s|]; try discriminate.
    exists s. split; [reflexivity|]. apply negb_true_iff in Hq. exact Hq.
  - intros i j a b Hij Ha Hb.
    apply lookup_map in Ha, Hb.
    destruct Ha as (ra & Hra & ->). destruct Hb as (rb & Hrb & ->).
    refine (strongly_sorted_lookup
              (fun x y : cell * list cell => cell_leb (fst x) (fst y) = true)
              _ _ i j ra rb Hij Hra Hrb).
    apply (sort_by_sorted (fun a b => cell_leb (fst a) (fst b))).
    + intros x y. apply cell_leb_total.
    + intros x y z. apply cell_leb_trans.
Qed.

End SortedLoaders.

(** ** The pathway-definitions loader *)

Section PathwayDefinitions.

Import Pandas.

Variable shorten_pathway_names : option (string -> string).

Lemma iterrows_loop_app (pre rest : list (cell * list string)) :
  forall m m' : gmap cell (gset string),
  iterrows_loop shorten_pathway_names (pre ++ rest) m = Returned m' ->
  exists m1,
    iterrows_loop shorten_pathway_names pre m = Returned m1
    /\ iterrows_loop shorten_pathway_names rest m1 = Returned m'.
Proof.
  induction pre as [|[idx genes] pre IH]; intros m m' H; simpl in *.
  - eauto.
  - destruct (shorten shorten_pathway_names idx) as [k| |]; simpl in *;
      try discriminate.
    apply IH, H.
Qed.

Lemma iterrows_loop_other_keys (k : cell) (rows : list (cell * list string)) :
  forall m m' : gmap cell (gset string),
  (forall r, In r rows -> shorten shorten_pathway_names (fst r) <> Returned k) ->
  iterrows_loop shorten_pathway_names rows m = Returned m' ->
  m' !! k = m !! k.
Proof.
  induction rows as [|[idx genes] rows IH]; intros m m' Hk H; simpl in *.
  - inversion H. reflexivity.
  - destruct (shorten shorten_pathway_names idx) as [k'| |] eqn:E; simpl in *;
      try discriminate.
    rewrite (IH _ _ (fun r Hr => Hk r (or_intror Hr)) H).
    apply lookup_insert_ne. intros ->. apply (Hk (idx, genes)); auto.
Qed.

(** C7: when several rows of the pathway-definitions file get the same
    (shortened) name, the dictionary holds under that name the gene set
    of the last of them in file order, and not the union with the gene
    set of an earlier one that has a gene the last one lacks. *)
Theorem colliding_pathway_names_last_row_wins (fs : file_system) (path : string)
    (m : gmap cell (gset string)) (rows pre post : list (cell * list string))
    (idx k : cell) (genes : list string) :
  pathway_rows fs path = Returned rows ->
  load_pathway_definitions fs path shorten_pathway_names = Returned m ->
  rows = pre ++ (idx, genes) :: post ->
  shorten shorten_pathway_names idx = Returned k ->
  (forall r, In r post -> shorten shorten_pathway_names (fst r) <> Returned k) ->
  m !! k = Some (list_to_set genes)
  /\ forall (idx' : cell) (genes' : list string) (g : string),
       In (idx', genes') pre ->
       shorten shorten_pathway_names idx' = Returned k ->
       In g genes' -> ~ In g genes ->
       m !! k <> Some (list_to_set genes' ∪ list_to_set genes).
Proof.
  intros Hrows Hload -> Hk Hpost.
  unfold load_pathway_definitions in Hload. rewrite Hrows in Hload.
  simpl in Hload.
  destruct (iterrows_loop_app _ _ _ _ Hload) as (m1 & _ & Hrest).
  simpl in Hrest. rewrite Hk in Hrest. simpl in Hrest.
  assert (Hm : m !! k = Some (list_to_set genes)).
  { rewrite (iterrows_loop_other_keys k post _ _ Hpost Hrest).
    apply lookup_insert_eq. }
  split; [exact Hm|].
  intros idx' genes' g _ _ Hg Hng. rewrite Hm. intros Heq.
  inversion Heq as [Hsets].
  assert (Hin : g ∈ (list_to_set genes : gset string)).
  { rewrite Hsets. apply elem_of_union_l, elem_of_list_to_set, list_elem_of_In, Hg. }
  apply elem_of_list_to_set, list_elem_of_In in Hin. contradiction.
Qed.

End PathwayDefinitions.

(** ** The loaders on the sample files *)

Lemma expression_dataset_filtered_and_sorted_witness :
  exists df : Pandas.DataFrame,
    load_expression_dataset Samples.files "expression.tsv" = Returned df
    /\ (forall l : Pandas.cell, In l (Pandas.index df) ->
          exists s : string,
            l = Pandas.Str s /\ Text.contains_char "?"%char s = false)
    /\ (forall (i j : nat) (a b : Pandas.cell),
          (i < j)%nat ->
          Pandas.index df !! i = Some a -> Pandas.index df !! j = Some b ->
          Pandas.cell_leb a b = true).
Proof.
  eexists. split; [vm_compute; reflexivity|].
  apply (expression_dataset_filtered_and_sorted Samples.files "expression.tsv").
  vm_compute. reflexivity.
Defined.

Lemma significant_pathways_sorted_witness :
  exists df : Pandas.DataFrame,
    load_significant_pathways_file Samples.files "significant.tsv" None
    = Returned df
    /\ exists features sides : list Pandas.cell,
         Pandas.column (Pandas.Str "feature") df = Some features
         /\ Pandas.column (Pandas.Str "side") df = Some sides
         /\ forall (i j : nat) (fi fj si sj : Pandas.cell),
              (i < j)%nat ->
              features !! i = Some fi -> features !! j = Some fj ->
              sides !! i = Some si -> sides !! j = Some sj ->
              Pandas.cell_ltb fi fj = true
              \/ (fi = fj /\ Pandas.cell_leb si sj = true).
Proof.
  eexists. split; [vm_compute; reflexivity|].
  apply (significant_pathways_sorted Samples.files "significant.tsv" None).
  vm_compute. reflexivity.
Defined.

Lemma significant_pathways_sort_stable_witness :
  exists df : Pandas.DataFrame,
    load_significant_pathways_file Samples.files "significant.tsv"
      (Some Samples.first_four) = Returned df
    /\ exists (df0 : Pandas.DataFrame) (ps : list nat),
         significant_pathways_unsorted Samples.files "significant.tsv"
           (Some Samples.first_four) = Returned df0
         /\ Pandas.positions [Pandas.Str "feature"; Pandas.Str "side"]
              (Pandas.columns df0) = Some ps
         /\ forall key : list Pandas.cell,
              List.filter (fun r => bool_decide (Pandas.sort_key ps r = key))
                (Pandas.labelled_rows df)
              = List.filter (fun r => bool_decide (Pandas.sort_key ps r = key))
                  (Pandas.labelled_rows df0).
Proof.
  eexists. split; [vm_compute; reflexivity|].
  apply (significant_pathways_sort_stable Samples.files "significant.tsv"
           (Some Samples.first_four)).
  vm_compute. reflexivity.
Defined.

Lemma colliding_pathway_names_last_row_wins_witness :
  let pre := [(Pandas.Str "long one", ["g1"; "g2"]); (Pandas.Str "other", ["g3"])] in
  let rows := pre ++ (Pandas.Str "long two", ["g4"; "g5"]) :: [] in
  let k := Pandas.Str "long" in
  exists m : gmap Pandas.cell (gset string),
    pathway_rows Samples.files "pathways.tsv" = Returned rows
    /\ load_pathway_definitions Samples.files "pathways.tsv"
         (Some Samples.first_four) = Returned m
    /\ shorten (Some Samples.first_four) (Pandas.Str "long two") = Returned k
    /\ m !! k = Some (list_to_set ["g4"; "g5"])
    /\ forall (idx' : Pandas.cell) (genes' : list string) (g : string),
         In (idx', genes') pre ->
         shorten (Some Samples.first_four) idx' = Returned k ->
         In g genes' -> ~ In g ["g4"; "g5"] ->
         m !! k <> Some (list_to_set genes' ∪ list_to_set ["g4"; "g5"]).
Proof.
  intros pre rows k.
  assert (Hrows : pathway_rows Samples.files "pathways.tsv" = Returned rows)
    by (vm_compute; reflexivity).
  eexists.
  split; [exact Hrows|].
  split; [unfold load_pathway_definitions; rewrite Hrows; reflexivity|].
  split; [reflexivity|].
  apply (colliding_pathway_names_last_row_wins (Some Samples.first_four)
           Samples.files "pathways.tsv" _ rows pre []
           (Pandas.Str "long two") k ["g4"; "g5"]).
  - exact Hrows.
  - unfold load_pathway_definitions. rewrite Hrows. reflexivity.
  - reflexivity.
  - reflexivity.
  - intros r [].
Defined.

(** ** The parser on rectangular text *)

Section ReadCsv.

Import Pandas.

Lemma pad_rows_spec (w : nat) (data : list (list string)) :
  forall raw, pad_rows w data = Returned raw ->
  length raw = length data /\ Forall (fun r => length r = w) raw.
Proof.
  induction data as [|r data IH]; intros raw H; simpl in H.
  - inversion H. split; [reflexivity|constructor].
  - destruct (Nat.ltb_spec w (length r)); [discriminate|].
    apply bind_returned in H. destruct H as (rest & Hrest & H).
    inversion H; subst raw. destruct (IH _ Hrest) as [Hl Hw].
    split; [simpl; congruence|].
    constructor; [|assumption].
    rewrite length_app, length_map, length_replicate. lia.
Qed.

Lemma pad_rows_exact (w : nat) (data : list (list string)) :
  Forall (fun r => length r = w) data ->
  pad_rows w data = Returned (map (map Some) data).
Proof.
  induction 1 as [|r data Hr _ IH]; simpl; [reflexivity|].
  destruct (Nat.ltb_spec w (length r)); [lia|].
  rewrite IH. simpl. rewrite Hr, Nat.sub_diag. simpl.
  rewrite app_nil_r. reflexivity.
Qed.

Lemma keep_all {A B : Type} (labels : list B) :
  forall l : list A,
  length l = length labels -> keep (map (fun _ => true) labels) l = l.
Proof.
  induction labels as [|b labels IH]; intros [|x l] H; simpl in *;
    try reflexivity; try discriminate.
  rewrite IH; [reflexivity|lia].
Qed.

Lemma map_keep_all {A B : Type} (labels : list B) (rows : list (list A)) :
  Forall (fun r => length r = length labels) rows ->
  map (keep (map (fun _ => true) labels)) rows = rows.
Proof.
  induction 1 as [|r rows Hr _ IH]; simpl; [reflexivity|].
  rewrite keep_all, IH; [reflexivity|assumption].
Qed.

Lemma convert_row_length (dtypes : list dtype) :
  forall r : list (option string),
  length r = length dtypes -> length (convert_row dtypes r) = length dtypes.
Proof.
  induction dtypes as [|d dtypes IH]; intros [|f r] H; simpl in *;
    try reflexivity; try discriminate.
  rewrite IH; [reflexivity|lia].
Qed.

Lemma column_dtypes_length (w : nat) (rows : list (list (option string))) :
  length (column_dtypes w rows) = w.
Proof. unfold column_dtypes. rewrite length_map, length_seq. reflexivity. Qed.

Lemma infer_types_shape (w : nat) (raw : list (list (option string))) :
  Forall (fun r => length r = w) raw ->
  length (infer_types w raw) = length raw
  /\ Forall (fun r => length r = w) (infer_types w raw).
Proof.
  intros H. unfold infer_types. split; [apply length_map|].
  apply List.Forall_map. eapply Forall_impl; [exact H|].
  intros r Hr. simpl.
  rewrite convert_row_length; rewrite column_dtypes_length; congruence.
Qed.

Lemma read_csv_no_usecols (text : string) (kw : read_csv_args) :
  usecols kw = None ->
  read_csv text kw
  = let* ok := check_nrows (nrows kw) in
    let* ld := labels_and_data kw (records (sep kw) text) in
    let* raw := pad_rows (length (fst ld)) (take_nrows (nrows kw) (snd ld)) in
    apply_index_col (index_col kw) (fst ld) (infer_types (length (fst ld)) raw).
Proof.
  intros Hu. unfold read_csv. rewrite Hu.
  destruct (check_nrows (nrows kw)); simpl; try reflexivity.
  destruct (labels_and_data kw (records (sep kw) text)) as [[labels data]| |];
    simpl; try reflexivity.
  destruct (pad_rows (length labels) (take_nrows (nrows kw) data)) as [raw| |] eqn:E;
    simpl; try reflexivity.
  destruct (pad_rows_spec _ _ _ E) as [_ Hw].
  rewrite keep_all by reflexivity. rewrite map_keep_all by exact Hw.
  reflexivity.
Qed.

(** The shape of a frame read without [usecols] and without [index_col]. *)
Lemma read_csv_plain (text : string) (kw : read_csv_args) (df : DataFrame) :
  usecols kw = None -> index_col kw = None ->
  read_csv text kw = Returned df ->
  exists labels data,
    labels_and_data kw (records (sep kw) text) = Returned (labels, data)
    /\ check_nrows (nrows kw) = Returned tt
    /\ columns df = labels
    /\ index df = range_index (length (take_nrows (nrows kw) data))
    /\ length (values df) = length (take_nrows (nrows kw) data)
    /\ Forall (fun r => length r = length labels) (values df).
Proof.
  intros Hu Hi H. rewrite (read_csv_no_usecols _ _ Hu), Hi in H.
  apply bind_returned in H. destruct H as ([] & Hok & H).
  apply bind_returned in H. destruct H as ([labels data] & Hld & H).
  apply bind_returned in H. destruct H as (raw & Hraw & H).
  simpl in *. inversion H; subst df. simpl.
  destruct (pad_rows_spec _ _ _ Hraw) as [Hl Hw].
  destruct (infer_types_shape _ _ Hw) as [Hl' Hw'].
  exists labels, data. repeat split; try assumption; congruence.
Qed.

Lemma take_nrows_length {A : Type} (n : option Z) (l : list A) :
  check_nrows n = Returned tt ->
  length (take_nrows n l)
  = match n with Some g => Nat.min (Z.to_nat g) (length l) | None => length l end.
Proof.
  intros _. destruct n as [g|]; simpl; [|reflexivity]. apply length_take.
Qed.

End ReadCsv.

(** ** Column types *)

Section ColumnTypes.

Import Pandas.







End ColumnTypes.

(** ** The weight-matrix loader with a genes file *)

Section GenesFile.

Import Pandas.

Lemma skip_rows_returned (fuel : nat) (fs : file_system) (path : string)
    (n_features : Z) (kwargs : read_csv_args) (wm : DataFrame) :
  _weight_matrix_file_skip_rows fuel fs path n_features kwargs = Returned wm ->
  exists text, read_csv text kwargs = Returned wm.
Proof.
  unfold _weight_matrix_file_skip_rows.
  destruct (fs !! path) as [content|]; [|discriminate].
  destruct (String.length content =? 0)%nat; [discriminate|].
  destruct (scan_loop fuel n_features (scan_start content)) as [st|];
    [|discriminate].
  eauto.
Qed.

Lemma truthy_path_some (p : string) :
  p <> EmptyString -> truthy_path (Some p) = true.
Proof. destruct p; [contradiction|reflexivity]. Qed.

(** What the helper returns when a genes file is given: integer column
    labels, the default row labels, at least one row. *)
Lemma weight_matrix_without_labels (text gpath : string) (n_genes : option Z)
    (wm : DataFrame) :
  gpath <> EmptyString ->
  read_csv text (weight_matrix_args n_genes (Some gpath)) = Returned wm ->
  exists w : nat,
    columns wm = range_index w
    /\ (1 <= n_rows wm)%nat
    /\ length (values wm) = n_rows wm
    /\ Forall (fun r => length r = w) (values wm).
Proof.
  intros Hg H.
  assert (Hkw : exists nr, weight_matrix_args n_genes (Some gpath)
                           = mk_args None Text.tab None nr None None
                           /\ (forall g, nr = Some g -> g <> 0%Z)).
  { unfold weight_matrix_args. rewrite (truthy_path_some _ Hg). simpl.
    destruct n_genes as [g|]; simpl.
    - destruct (Z.eqb_spec g 0); simpl.
      + exists None. split; [reflexivity|discriminate].
      + exists (Some g). split; [reflexivity|]. intros ? [= <-]. assumption.
    - exists None. split; [reflexivity|discriminate]. }
  destruct Hkw as (nr & Hkw & Hnr). rewrite Hkw in H. clear Hkw.
  apply read_csv_plain in H; [|reflexivity|reflexivity].
  destruct H as (labels & data & Hld & Hok & Hcols & Hidx & Hlen & Hw).
  simpl in *. unfold labels_and_data in Hld. simpl in Hld.
  destruct (records Text.tab text) as [|first rest]; [discriminate|].
  injection Hld as Hlab Hdat. subst labels data.
  exists (length first).
  assert (Hrange : forall k, length (range_index k) = k)
    by (intros k; unfold range_index; rewrite length_map, length_seq; reflexivity).
  rewrite Hrange in Hw.
  unfold n_rows. rewrite Hidx, Hrange.
  repeat split; try assumption.
  destruct nr as [g|]; simpl in *; [|lia].
  destruct (Z.ltb_spec g 0); [discriminate|].
  pose proof (Hnr g eq_refl). rewrite length_take. simpl. lia.
Qed.




Lemma position_after_range (w : nat) (s : string) :
  position (Str s) (range_index w ++ [Str s]) = Some w.
Proof.
  unfold range_index.
  assert (H : forall k, position (Str s)
                (map (fun i => Int (Z.of_nat i)) (seq k w) ++ [Str s]) = Some w).
  { induction w as [|w IH]; intros k; simpl.
    - rewrite cell_eqb_refl. reflexivity.
    - rewrite IH. reflexivity. }
  apply H.
Qed.

Lemma remove_nth_last {A : Type} (l : list A) (x : A) :
  remove_nth (length l) (l ++ [x]) = l.
Proof.
  unfold remove_nth. rewrite take_app_length.
  rewrite drop_ge; [apply app_nil_r|]. rewrite length_app. simpl. lia.
Qed.

Lemma nth_forall {A : Type} (P : A -> Prop) (l : list A) (d : A) (i : nat) :
  Forall P l -> P d -> P (nth i l d).
Proof.
  intros Hl Hd. revert i. induction Hl; intros [|i]; simpl; auto.
Qed.



End GenesFile.

Section GenesLabels.

Import Pandas.





End GenesLabels.

(** ** The shape of the weight matrix *)

Section WeightMatrixShape.

Import Pandas.

Lemma split_cons_length (sep c : ascii) (x : string) :
  length (Text.split sep (String c x))
  = if Ascii.eqb c sep then S (length (Text.split sep x))
    else length (Text.split sep x).
Proof.
  simpl. destruct (Ascii.eqb c sep); [reflexivity|].
  pose proof (split_length_pos sep x).
  destruct (Text.split sep x); simpl in *; [lia|reflexivity].
Qed.

Lemma chomp_field_count (s : string) :
  Forall (fun l => length (Text.split Text.tab (Text.chomp l))
                   = length (Text.split Text.tab l)) (Text.file_lines s).
Proof.
  induction s as [|c r IH]; [constructor|].
  cbn [Text.file_lines]. destruct (Ascii.eqb c Text.newline) eqn:E.
  - constructor; [|exact IH].
    apply Ascii.eqb_eq in E. subst c. reflexivity.
  - assert (Hc : forall l,
               length (Text.split Text.tab (Text.chomp l))
               = length (Text.split Text.tab l) ->
               length (Text.split Text.tab (Text.chomp (String c l)))
               = length (Text.split Text.tab (String c l))).
    { intros l Hl. cbn [Text.chomp]. rewrite E, !split_cons_length, Hl.
      reflexivity. }
    destruct (Text.file_lines r) as [|l ls].
    + constructor; [|constructor]. apply Hc. reflexivity.
    + inversion IH; subst. constructor; [|assumption]. apply Hc. assumption.
Qed.

Lemma filter_all {A : Type} (p : A -> bool) (l : list A) :
  Forall (fun x => p x = true) l -> List.filter p l = l.
Proof. induction 1 as [|x l Hx _ IH]; simpl; [reflexivity|]. rewrite Hx, IH. reflexivity. Qed.

(** The records of a text whose lines are all data lines. *)
Lemma records_of_data_lines (text : string) :
  Forall data_line (Text.file_lines text) ->
  records Text.tab text
  = map (fun l => Text.split Text.tab (Text.chomp l)) (Text.file_lines text).
Proof.
  intros H. unfold records. rewrite filter_all, map_map; [reflexivity|].
  apply List.Forall_map. eapply Forall_impl; [exact H|].
  intros l Hl. unfold data_line in Hl. rewrite Hl. reflexivity.
Qed.

Lemma range_index_length (k : nat) : length (range_index k) = k.
Proof. unfold range_index. rewrite length_map, length_seq. reflexivity. Qed.

(** The parser on records that all have [w] fields, without a header. *)
Lemma read_csv_rect (text : string) (sp : ascii) (ic : option nat)
    (nr : option Z) (w : nat) (recs : list (list string)) :
  records sp text = recs -> recs <> [] ->
  Forall (fun r => length r = w) recs ->
  check_nrows nr = Returned tt ->
  read_csv text (mk_args None sp ic nr None None)
  = apply_index_col ic (range_index w)
      (infer_types w (map (map Some) (take_nrows nr recs))).
Proof.
  intros Hrec Hne Hw Hok. rewrite read_csv_no_usecols by reflexivity.
  cbn [nrows sep header names index_col]. rewrite Hok, Hrec. cbn [bind].
  destruct recs as [|first rest]; [contradiction|].
  assert (Hfirst : length first = w) by (inversion Hw; assumption).
  unfold labels_and_data. cbn [names header bind fst snd].
  rewrite range_index_length, Hfirst.
  rewrite (pad_rows_exact w (take_nrows nr (first :: rest))); [reflexivity|].
  destruct nr; simpl; [apply Forall_take|]; assumption.
Qed.

Lemma weight_matrix_args_eq (n_genes : option Z) (genes : option string) :
  weight_matrix_args n_genes genes
  = mk_args None Text.tab (if truthy_path genes then None else Some O)
      (if truthy_int n_genes then n_genes else None) None None.
Proof.
  unfold weight_matrix_args.
  destruct (truthy_int n_genes), (truthy_path genes); reflexivity.
Qed.

Lemma check_nrows_valid (n_genes : option Z) :
  valid_n_genes n_genes ->
  check_nrows (if truthy_int n_genes then n_genes else None) = Returned tt.
Proof.
  destruct n_genes as [g|]; simpl; [|reflexivity]. intros Hg.
  destruct (Z.eqb_spec g 0); simpl; [reflexivity|].
  destruct (Z.ltb_spec g 0); [lia|reflexivity].
Qed.

Lemma take_nrows_rows_read {A : Type} (n_genes : option Z) (l : list A) :
  length (take_nrows (if truthy_int n_genes then n_genes else None) l)
  = rows_read n_genes (length l).
Proof.
  destruct n_genes as [g|]; simpl; [|reflexivity].
  destruct (Z.eqb_spec g 0); simpl; [reflexivity|]. apply length_take.
Qed.

(** What the helper hands to the parser, and what the parser makes of
    it, for a file of narrow lines followed by data lines of [w] fields. *)
Lemma skip_rows_rect (fuel : nat) (fs : file_system) (path content : string)
    (n_features : Z) (n_genes : option Z) (genes : option string)
    (junk rows : list string) (w : nat) :
  fs !! path = Some content ->
  Text.file_lines content = junk ++ rows ->
  rows <> [] ->
  Forall (narrow n_features) junk ->
  Forall data_line rows ->
  Forall (fun l => Text.field_count Text.tab l = w) rows ->
  (n_features <= Z.of_nat w)%Z ->
  valid_n_genes n_genes ->
  (length junk <= fuel)%nat ->
  exists typed : list (list cell),
    _weight_matrix_file_skip_rows fuel fs path n_features
      (weight_matrix_args n_genes genes)
    = apply_index_col (if truthy_path genes then None else Some O)
        (range_index w) typed
    /\ length typed = rows_read n_genes (length rows)
    /\ Forall (fun r => length r = w) typed.
Proof.
  intros Hfs Hlines Hne Hjunk Hdata Hw Hwide Hvalid Hfuel.
  destruct rows as [|l post]; [contradiction|].
  assert (Hl : wide n_features l).
  { inversion Hw; subst. unfold wide. lia. }
  destruct (skip_rows_found fuel fs path content n_features
              (weight_matrix_args n_genes genes) junk l post
              Hfs Hlines Hjunk Hl Hfuel) as [_ Hskip].
  assert (Hrest : Text.file_lines (Text.concat_str (l :: post)) = l :: post).
  { rewrite <- (file_lines_drop junk content (l :: post) Hlines).
    rewrite concat_file_lines. reflexivity. }
  assert (Hcount : Forall (fun r => length r = w)
            (map (fun l => Text.split Text.tab (Text.chomp l)) (l :: post))).
  { apply List.Forall_map.
    pose proof (chomp_field_count (Text.concat_str (l :: post))) as Hc.
    rewrite Hrest in Hc. rewrite List.Forall_forall in Hc, Hw |- *.
    intros x Hx. rewrite (Hc x Hx). apply (Hw x Hx). }
  rewrite Hskip, weight_matrix_args_eq.
  rewrite (read_csv_rect _ _ _ _ w
             (map (fun l => Text.split Text.tab (Text.chomp l)) (l :: post))).
  - eexists. split; [reflexivity|].
    assert (Hraw : Forall (fun r : list (option string) => length r = w)
              (map (map Some)
                 (take_nrows (if truthy_int n_genes then n_genes else None)
                    (map (fun l => Text.split Text.tab (Text.chomp l))
                       (l :: post))))).
    { apply List.Forall_map.
      assert (Ht : Forall (fun r : list string => length r = w)
                (take_nrows (if truthy_int n_genes then n_genes else None)
                   (map (fun l => Text.split Text.tab (Text.chomp l))
                      (l :: post))))
        by (destruct (if truthy_int n_genes then n_genes else None);
            simpl; [apply Forall_take|]; exact Hcount).
      eapply Forall_impl; [exact Ht|]. intros r Hr. rewrite length_map. exact Hr. }
    destruct (infer_types_shape _ _ Hraw) as [Hlen Hshape].
    split; [|exact Hshape].
    rewrite Hlen, length_map, take_nrows_rows_read, length_map. reflexivity.
  - rewrite <- Hrest at 2. apply records_of_data_lines. rewrite Hrest. exact Hdata.
  - discriminate.
  - exact Hcount.
  - apply check_nrows_valid, Hvalid.
Qed.

End WeightMatrixShape.

Section WeightMatrixClaim.

Import Pandas.

Lemma field_count_nat (n : Z) (rows : list string) :
  Forall (fun l => Z.of_nat (Text.field_count Text.tab l) = n) rows ->
  Forall (fun l => Text.field_count Text.tab l = Z.to_nat n) rows.
Proof.
  intros H. eapply Forall_impl; [exact H|]. intros l Hl. simpl in Hl. lia.
Qed.

(** With row labels in the file: column 0 becomes the index and
    [n_features] columns are left. *)
Lemma weight_matrix_shape_labelled (fuel : nat) (fs : file_system)
    (path content : string) (n_features : Z) (n_genes : option Z)
    (genes : option string) (junk rows : list string) :
  fs !! path = Some content ->
  Text.file_lines content = junk ++ rows ->
  rows <> [] ->
  Forall (narrow n_features) junk ->
  Forall data_line rows ->
  valid_n_genes n_genes ->
  (length junk <= fuel)%nat ->
  truthy_path genes = false ->
  Forall (fun l => Z.of_nat (Text.field_count Text.tab l) = (n_features + 1)%Z)
    rows ->
  exists df : DataFrame,
    load_weight_matrix fuel fs path n_features n_genes genes = Returned df
    /\ n_rows df = rows_read n_genes (length rows)
    /\ Z.of_nat (n_columns df) = n_features.
Proof.
  intros Hfs Hlines Hne Hjunk Hdata Hvalid Hfuel Hgenes Hcount.
  assert (Hpos : (0 <= n_features)%Z).
  { destruct rows as [|l rows]; [contradiction|]. inversion Hcount; subst.
    pose proof (split_length_pos Text.tab l). unfold Text.field_count in *. lia. }
  destruct (skip_rows_rect fuel fs path content n_features n_genes genes
              junk rows (Z.to_nat (n_features + 1)) Hfs Hlines Hne Hjunk Hdata
              (field_count_nat _ _ Hcount) ltac:(lia) Hvalid Hfuel)
    as (typed & Hskip & Hlen & Hshape).
  unfold load_weight_matrix. rewrite Hskip, Hgenes.
  replace (Z.to_nat (n_features + 1)) with (S (Z.to_nat n_features)) by lia.
  unfold apply_index_col, range_index. cbn [seq map lookup list_lookup bind].
  unfold set_columns, rename_index, n_columns. cbn [columns index index_name values].
  unfold remove_nth. cbn [take drop app].
  rewrite drop_0, !length_map, !length_seq, Nat.eqb_refl.
  eexists. split; [reflexivity|]. unfold n_rows, n_columns.
  cbn [index columns]. rewrite !length_map, length_seq. split; [exact Hlen|lia].
Qed.

Lemma genes_frame_columns (fs : file_system) (gpath : string) (gdf : DataFrame) :
  read_path fs gpath genes_args = Returned gdf -> columns gdf = [Str "genes"].
Proof.
  unfold read_path. destruct (fs !! gpath) as [gtext|]; [|discriminate].
  intros H. apply read_csv_plain in H; [|reflexivity|reflexivity].
  destruct H as (labels & data & Hld & _ & Hcols & _).
  unfold labels_and_data in Hld. cbn [sep genes_args names header] in Hld.
  destruct (records ","%char gtext); [discriminate|].
  injection Hld as Hlab _. congruence.
Qed.

(** With the row labels in a genes file: the genes column is attached
    and promoted, and the [n_features] columns of the file are left. *)
Lemma weight_matrix_shape_genes_file (fuel : nat) (fs : file_system)
    (path content gpath : string) (n_features : Z) (n_genes : option Z)
    (junk rows : list string) (gdf : DataFrame) :
  fs !! path = Some content ->
  Text.file_lines content = junk ++ rows ->
  rows <> [] ->
  Forall (narrow n_features) junk ->
  Forall data_line rows ->
  valid_n_genes n_genes ->
  (length junk <= fuel)%nat ->
  gpath <> EmptyString ->
  read_path fs gpath genes_args = Returned gdf ->
  (n_rows gdf <= rows_read n_genes (length rows))%nat ->
  Forall (fun l => Z.of_nat (Text.field_count Text.tab l) = n_features) rows ->
  exists df : DataFrame,
    load_weight_matrix fuel fs path n_features n_genes (Some gpath) = Returned df
    /\ n_rows df = rows_read n_genes (length rows)
    /\ Z.of_nat (n_columns df) = n_features.
Proof.
  intros Hfs Hlines Hne Hjunk Hdata Hvalid Hfuel Hg Hgdf Hrows Hcount.
  assert (Hpos : (1 <= n_features)%Z).
  { destruct rows as [|l rows]; [contradiction|]. inversion Hcount; subst.
    pose proof (split_length_pos Text.tab l). unfold Text.field_count in *. lia. }
  destruct (skip_rows_rect fuel fs path content n_features n_genes (Some gpath)
              junk rows (Z.to_nat n_features) Hfs Hlines Hne Hjunk Hdata
              (field_count_nat _ _ Hcount) ltac:(lia) Hvalid Hfuel)
    as (typed & Hskip & Hlen & Hshape).
  unfold load_weight_matrix. rewrite Hskip, (truthy_path_some _ Hg).
  change (default EmptyString (Some gpath)) with gpath.
  unfold apply_index_col. cbn [bind]. rewrite Hgdf. cbn [bind].
  unfold set_index, concat_columns. cbn [columns values].
  rewrite (genes_frame_columns _ _ _ Hgdf), position_after_range.
  eexists. split; [reflexivity|]. unfold n_rows, n_columns.
  cbn [index columns].
  rewrite !length_map, length_seq.
  pose proof (remove_nth_last (range_index (Z.to_nat n_features)) (Str "genes"))
    as E.
  rewrite range_index_length in E. rewrite E, range_index_length.
  unfold n_rows in *. cbn [index] in *. rewrite range_index_length.
  split; lia.
Qed.

(** C1, as the loader does it: after leading lines with fewer than
    [n_features] fields, [m >= 1] data rows give a table of [m] rows
    (at most [n_genes] of them when [n_genes] is given and not 0) and
    [n_features] columns, provided that the rows carry [n_features + 1]
    fields when no genes file is given, the first being the row label,
    and [n_features] fields when a genes file with no more identifiers
    than rows read is given. *)
Theorem weight_matrix_shape (fuel : nat) (fs : file_system)
    (path content : string) (n_features : Z) (n_genes : option Z)
    (junk rows : list string) :
  fs !! path = Some content ->
  Text.file_lines content = junk ++ rows ->
  rows <> [] ->
  Forall (narrow n_features) junk ->
  Forall data_line rows ->
  valid_n_genes n_genes ->
  (length junk <= fuel)%nat ->
  (Forall (fun l => Z.of_nat (Text.field_count Text.tab l) = (n_features + 1)%Z)
     rows ->
   exists df : DataFrame,
     load_weight_matrix fuel fs path n_features n_genes None = Returned df
     /\ n_rows df = rows_read n_genes (length rows)
     /\ Z.of_nat (n_columns df) = n_features)
  /\ (forall (gpath : string) (gdf : DataFrame),
        gpath <> EmptyString ->
        read_path fs gpath genes_args = Returned gdf ->
        (n_rows gdf <= rows_read n_genes (length rows))%nat ->
        Forall (fun l => Z.of_nat (Text.field_count Text.tab l) = n_features)
          rows ->
        exists df : DataFrame,
          load_weight_matrix fuel fs path n_features n_genes (Some gpath)
          = Returned df
          /\ n_rows df = rows_read n_genes (length rows)
          /\ Z.of_nat (n_columns df) = n_features).
Proof.
  intros Hfs Hlines Hne Hjunk Hdata Hvalid Hfuel. split.
  - intros Hcount.
    apply (weight_matrix_shape_labelled fuel fs path content n_features n_genes
             None junk rows); auto.
  - intros gpath gdf Hg Hgdf Hrows Hcount.
    apply (weight_matrix_shape_genes_file fuel fs path content gpath n_features
             n_genes junk rows gdf); auto.
Qed.

End WeightMatrixClaim.

Section WeightMatrixSamples.

Import Pandas Text.

(** C1 as stated fails: a file with one narrow line and two data rows of
    exactly [n_features = 2] fields, read without a genes file, gives no
    table.  Column 0 becomes the row labels, one column is left, and
    relabelling it with two labels is a length mismatch. *)
Lemma weight_matrix_exact_fields_counterexample :
  let junk := [row ["model v1"]] in
  let rows := [row ["1"; "2"]; row ["3"; "4"]] in
  Samples.files !! "bare.tsv" = Some Samples.weights_bare
  /\ file_lines Samples.weights_bare = junk ++ rows
  /\ Forall (narrow 2) junk
  /\ Forall (fun l => field_count tab l = 2%nat) rows
  /\ (forall fuel : nat, (length junk <= fuel)%nat ->
        load_weight_matrix fuel Samples.files "bare.tsv" 2 None None
        = Raised (ValueError "Length mismatch"))
  /\ ~ (exists (fuel : nat) (df : DataFrame),
          load_weight_matrix fuel Samples.files "bare.tsv" 2 None None
          = Returned df
          /\ n_rows df = length rows /\ n_columns df = 2%nat).
Proof.
  intros junk rows.
  split; [reflexivity|]. split; [reflexivity|].
  split; [repeat constructor; unfold narrow; vm_compute; reflexivity|].
  split; [repeat constructor|].
  split.
  - intros [|[|fuel]] Hfuel; [simpl in Hfuel; lia| |]; vm_compute; reflexivity.
  - intros ([|[|fuel]] & df & H & _); vm_compute in H; discriminate.
Qed.

Lemma weight_matrix_shape_witness :
  let junk := [row ["model v1"]] in
  let rows := [row ["a"; "1"; "2"]; row ["b"; "3"; "4"]] in
  let bare := [row ["1"; "2"]; row ["3"; "4"]] in
  (Samples.files !! "labelled.tsv" = Some Samples.weights_labelled
   /\ file_lines Samples.weights_labelled = junk ++ rows
   /\ rows <> []
   /\ Forall (narrow 2) junk
   /\ Forall data_line rows
   /\ valid_n_genes (Some 1%Z)
   /\ (length junk <= 1)%nat
   /\ Forall (fun l => Z.of_nat (field_count tab l) = (2 + 1)%Z) rows
   /\ exists df : DataFrame,
        load_weight_matrix 1 Samples.files "labelled.tsv" 2 (Some 1%Z) None
        = Returned df
        /\ n_rows df = 1%nat /\ Z.of_nat (n_columns df) = 2%Z)
  /\ (Samples.files !! "bare.tsv" = Some Samples.weights_bare
      /\ file_lines Samples.weights_bare = junk ++ bare
      /\ Forall data_line bare
      /\ (exists gdf : DataFrame,
            read_path Samples.files "genes.txt" genes_args = Returned gdf
            /\ (n_rows gdf <= 2)%nat)
      /\ Forall (fun l => Z.of_nat (field_count tab l) = 2%Z) bare
      /\ exists df : DataFrame,
           load_weight_matrix 1 Samples.files "bare.tsv" 2 None (Some "genes.txt")
           = Returned df
           /\ n_rows df = 2%nat /\ Z.of_nat (n_columns df) = 2%Z).
Proof.
  intros junk rows bare.
  assert (H1 : Samples.files !! "labelled.tsv" = Some Samples.weights_labelled)
    by reflexivity.
  assert (H2 : file_lines Samples.weights_labelled = junk ++ rows) by reflexivity.
  assert (H3 : rows <> []) by discriminate.
  assert (H4 : Forall (narrow 2) junk)
    by (repeat constructor; unfold narrow; vm_compute; reflexivity).
  assert (H5 : Forall data_line rows) by (repeat constructor).
  assert (H6 : valid_n_genes (Some 1%Z)) by (simpl; lia).
  assert (H7 : (length junk <= 1)%nat) by (simpl; lia).
  assert (H8 : Forall (fun l => Z.of_nat (field_count tab l) = (2 + 1)%Z) rows)
    by (repeat constructor).
  assert (B1 : Samples.files !! "bare.tsv" = Some Samples.weights_bare)
    by reflexivity.
  assert (B2 : file_lines Samples.weights_bare = junk ++ bare) by reflexivity.
  assert (B3 : bare <> []) by discriminate.
  assert (B5 : Forall data_line bare) by (repeat constructor).
  assert (B6 : valid_n_genes None) by exact I.
  assert (B8 : Forall (fun l => Z.of_nat (field_count tab l) = 2%Z) bare)
    by (repeat constructor).
  assert (B9 : read_path Samples.files "genes.txt" genes_args
               = Returned (mk_frame None (range_index 2) [Str "genes"]
                             [[Str "PA0001"]; [Str "PA0002"]]))
    by (vm_compute; reflexivity).
  split.
  - repeat (split; [assumption|]).
    exact (proj1 (weight_matrix_shape 1 Samples.files "labelled.tsv"
                    Samples.weights_labelled 2 (Some 1%Z) junk rows
                    H1 H2 H3 H4 H5 H6 H7) H8).
  - repeat (split; [assumption|]).
    split; [eexists; split; [exact B9|vm_compute; lia]|].
    split; [assumption|].
    refine (proj2 (weight_matrix_shape 1 Samples.files "bare.tsv"
                     Samples.weights_bare 2 None junk bare
                     B1 B2 B3 H4 B5 B6 H7) "genes.txt" _ _ B9 _ B8).
    + discriminate.
    + vm_compute. lia.
Defined.

End WeightMatrixSamples.

Section ZeroCap.

Import Pandas Text.



End ZeroCap.

(** * Further properties of the loaders *)

(** ** The weight-matrix helper and loader *)

Section WeightMatrixEdges.

Import Pandas Text File.

(** X1: with [n_features <= 1] the scan skips nothing.  Every line,
    the first included, splits into at least one field, so the loop
    body is never entered and a non-empty file is parsed from its first
    character, leading metadata included, whatever the number of passes
    allowed. *)
Theorem skip_rows_skips_nothing_below_two (fuel : nat) (fs : file_system)
    (path content : string) (n_features : Z) (kwargs : read_csv_args) :
  fs !! path = Some content ->
  content <> EmptyString ->
  (n_features <= 1)%Z ->
  scan_loop fuel n_features (scan_start content) = Some (scan_start content)
  /\ st_pos (scan_start content) = 0%nat
  /\ _weight_matrix_file_skip_rows fuel fs path n_features kwargs
     = read_csv content kwargs.
Proof.
  intros Hfs Hne Hn.
  assert (Hguard : (Z.of_nat (length (st_data (scan_start content)))
                    <? n_features)%Z = false).
  { apply Z.ltb_ge. unfold scan_start.
    destruct (readline (open content)) as [line f]. cbn [st_data].
    pose proof (split_length_pos tab line). lia. }
  assert (Hscan : scan_loop fuel n_features (scan_start content)
                  = Some (scan_start content))
    by (destruct fuel; cbn [scan_loop]; rewrite Hguard; reflexivity).
  assert (Hpos : st_pos (scan_start content) = 0%nat).
  { unfold scan_start. destruct (readline (open content)). reflexivity. }
  split; [exact Hscan|]. split; [exact Hpos|].
  unfold _weight_matrix_file_skip_rows.
  rewrite Hfs, (nonempty_length _ Hne), Hscan, Hpos.
  unfold scan_start. destruct (readline (open content)) as [line f] eqn:E.
  unfold readline in E. injection E as _ <-. reflexivity.
Qed.

Lemma skip_rows_skips_nothing_below_two_witness :
  Samples.files !! "labelled.tsv" = Some Samples.weights_labelled
  /\ Samples.weights_labelled <> EmptyString
  /\ (1 <= 1)%Z
  /\ scan_loop 0 1 (scan_start Samples.weights_labelled)
     = Some (scan_start Samples.weights_labelled)
  /\ st_pos (scan_start Samples.weights_labelled) = 0%nat
  /\ _weight_matrix_file_skip_rows 0 Samples.files "labelled.tsv" 1 default_args
     = read_csv Samples.weights_labelled default_args.
Proof.
  assert (H1 : Samples.files !! "labelled.tsv" = Some Samples.weights_labelled)
    by reflexivity.
  assert (H2 : Samples.weights_labelled <> EmptyString) by discriminate.
  assert (H3 : (1 <= 1)%Z) by lia.
  repeat (split; [assumption|]).
  exact (skip_rows_skips_nothing_below_two 0 Samples.files "labelled.tsv"
           Samples.weights_labelled 1 default_args H1 H2 H3).
Defined.

(** The frame the parser returns without a header, names or column
    selection: typed rows of the width of the first record, under the
    index that [index_col] asks for. *)
Lemma read_csv_headerless (text : string) (sp : ascii) (ic : option nat)
    (nr : option Z) (df : DataFrame) :
  read_csv text (mk_args None sp ic nr None None) = Returned df ->
  exists (first : list string) (rest : list (list string))
         (typed : list (list cell)),
    records sp text = first :: rest
    /\ check_nrows nr = Returned tt
    /\ length typed = length (take_nrows nr (first :: rest))
    /\ Forall (fun r => length r = length first) typed
    /\ apply_index_col ic (range_index (length first)) typed = Returned df.
Proof.
  intros H. rewrite read_csv_no_usecols in H by reflexivity.
  cbn [nrows sep index_col] in H.
  apply bind_returned in H. destruct H as ([] & Hok & H).
  apply bind_returned in H. destruct H as ([labels data] & Hld & H).
  apply bind_returned in H. destruct H as (raw & Hraw & H).
  unfold labels_and_data in Hld. cbn [names header] in Hld.
  destruct (records sp text) as [|first rest]; [discriminate|].
  injection Hld as <- <-. cbn [fst snd] in *.
  rewrite range_index_length in *.
  destruct (pad_rows_spec _ _ _ Hraw) as [Hl Hw].
  destruct (infer_types_shape _ _ Hw) as [Hl' Hw'].
  exists first, rest, (infer_types (length first) raw).
  repeat split; try assumption; congruence.
Qed.

Lemma records_first_width (sp : ascii) (text : string) (first : list string)
    (rest : list (list string)) :
  records sp text = first :: rest -> (1 <= length first)%nat.
Proof.
  unfold records. intros H.
  destruct (List.filter (fun l => negb (blank_line sp l))
              (map chomp (file_lines text))) as [|x xs]; [discriminate|].
  injection H as <- _. apply split_length_pos.
Qed.

Lemma take_nrows_nonempty {A : Type} (n_genes : option Z) (x : A) (l : list A) :
  check_nrows (if truthy_int n_genes then n_genes else None) = Returned tt ->
  (1 <= length (take_nrows (if truthy_int n_genes then n_genes else None)
                  (x :: l)))%nat.
Proof.
  destruct n_genes as [g|]; simpl; [|lia].
  destruct (Z.eqb_spec g 0); simpl; [lia|].
  destruct (Z.ltb_spec g 0); [discriminate|]. intros _.
  rewrite length_take. simpl. lia.
Qed.

(** X2: what every table returned by [load_weight_matrix] looks like.
    Its row index is named [genes], it has at least one row, and its
    columns are labelled by consecutive integers from 0: exactly
    [n_features] of them when no genes file is given (the relabelling
    checks the count), as many as the first parsed line has fields when
    one is given (nothing compares that count with [n_features]). *)
Theorem weight_matrix_postcondition (fuel : nat) (fs : file_system)
    (path : string) (n_features : Z) (n_genes : option Z)
    (path_to_genes_file : option string) (df : DataFrame) :
  load_weight_matrix fuel fs path n_features n_genes path_to_genes_file
  = Returned df ->
  index_name df = Some (Str "genes")
  /\ (1 <= n_rows df)%nat
  /\ (truthy_path path_to_genes_file = false ->
      columns df = range_index (Z.to_nat n_features))
  /\ (truthy_path path_to_genes_file = true ->
      exists w : nat, (1 <= w)%nat /\ columns df = range_index w).
Proof.
  unfold load_weight_matrix. intros H.
  apply bind_returned in H. destruct H as (wm & Hwm & H).
  destruct (skip_rows_returned _ _ _ _ _ _ Hwm) as (text & Hread).
  rewrite weight_matrix_args_eq in Hread.
  destruct (read_csv_headerless _ _ _ _ _ Hread)
    as (first & rest & typed & Hrec & Hok & Hlen & Hw & Hidx).
  pose proof (take_nrows_nonempty n_genes first rest Hok) as Hpos.
  destruct (truthy_path path_to_genes_file) eqn:Hg.
  - apply bind_returned in H. destruct H as (gdf & Hgdf & H).
    cbn [apply_index_col] in Hidx. injection Hidx as <-.
    unfold set_index, concat_columns in H. cbn [columns values] in H.
    rewrite (genes_frame_columns _ _ _ Hgdf), position_after_range in H.
    injection H as <-. unfold n_rows. cbn [index_name index columns].
    split; [reflexivity|]. split.
    + rewrite length_map, length_map, length_seq, range_index_length. lia.
    + split; [discriminate|]. intros _. exists (length first).
      split; [exact (records_first_width _ _ _ _ Hrec)|].
      pose proof (remove_nth_last (range_index (length first)) (Str "genes")) as E.
      rewrite range_index_length in E. exact E.
  - unfold set_columns, rename_index, n_columns in H.
    cbn [columns index index_name values] in H.
    destruct (length (range_index (Z.to_nat n_features)) =? length (columns wm))%nat;
      [|discriminate].
    injection H as <-. unfold n_rows. cbn [index_name index columns].
    split; [reflexivity|]. split.
    + unfold apply_index_col in Hidx.
      destruct (range_index (length first) !! 0%nat); [|discriminate].
      injection Hidx as <-. cbn [index]. rewrite length_map. lia.
    + split; [reflexivity|discriminate].
Qed.

Lemma weight_matrix_postcondition_witness :
  exists df : DataFrame,
    load_weight_matrix 1 Samples.files "labelled.tsv" 2 None None = Returned df
    /\ index_name df = Some (Str "genes")
    /\ (1 <= n_rows df)%nat
    /\ (truthy_path None = false -> columns df = range_index (Z.to_nat 2))
    /\ (truthy_path None = true ->
        exists w : nat, (1 <= w)%nat /\ columns df = range_index w).
Proof.
  eexists. split; [vm_compute; reflexivity|].
  apply (weight_matrix_postcondition 1 Samples.files "labelled.tsv" 2 None None).
  vm_compute. reflexivity.
Defined.

Lemma remove_nth_length {A : Type} (i : nat) (l : list A) :
  length (remove_nth i l) = (Nat.min i (length l) + (length l - S i))%nat.
Proof.
  unfold remove_nth. rewrite length_app, length_take, length_drop. reflexivity.
Qed.

(** The first record of a text that starts with a data line. *)
Lemma records_first_data_line (text l : string) (post : list string) :
  file_lines text = l :: post -> data_line l ->
  exists rest, records tab text = split tab (chomp l) :: rest.
Proof.
  intros Hl Hd. unfold records. rewrite Hl. cbn [map List.filter].
  unfold data_line in Hd. rewrite Hd. cbn [negb map]. eauto.
Qed.

(** X3: the width of the first data line decides the columns.  Let the
    first line with at least [n_features] fields be a data line with [w]
    fields.  When the loader returns a table although no genes file was
    given, [w = n_features + 1] (a negative [n_features] counting as 0);
    with a genes file the table has [w] columns, whatever [n_features]
    is. *)
Theorem weight_matrix_width_of_first_data_line (fuel : nat) (fs : file_system)
    (path content : string) (n_features : Z) (n_genes : option Z)
    (path_to_genes_file : option string) (pre : list string) (l : string)
    (post : list string) (df : DataFrame) :
  fs !! path = Some content ->
  file_lines content = pre ++ l :: post ->
  Forall (narrow n_features) pre -> wide n_features l -> data_line l ->
  (length pre <= fuel)%nat ->
  load_weight_matrix fuel fs path n_features n_genes path_to_genes_file
  = Returned df ->
  (truthy_path path_to_genes_file = false ->
   field_count tab l = S (Z.to_nat n_features))
  /\ (truthy_path path_to_genes_file = true ->
      columns df = range_index (field_count tab l)).
Proof.
  intros Hfs Hlines Hpre Hl Hd Hfuel H.
  unfold load_weight_matrix in H.
  apply bind_returned in H. destruct H as (wm & Hwm & H).
  destruct (skip_rows_found fuel fs path content n_features
              (weight_matrix_args n_genes path_to_genes_file) pre l post
              Hfs Hlines Hpre Hl Hfuel) as [_ Hskip].
  rewrite Hskip, weight_matrix_args_eq in Hwm.
  destruct (read_csv_headerless _ _ _ _ _ Hwm)
    as (first & rest & typed & Hrec & Hok & Hlen & Hw & Hidx).
  assert (Hrest : file_lines (concat_str (l :: post)) = l :: post).
  { rewrite <- (file_lines_drop pre content (l :: post) Hlines).
    rewrite concat_file_lines. reflexivity. }
  destruct (records_first_data_line _ _ _ Hrest Hd) as (rest' & Hrec').
  rewrite Hrec' in Hrec. injection Hrec as Hfirst _.
  assert (Hwidth : length first = field_count tab l).
  { rewrite <- Hfirst. pose proof (chomp_field_count (concat_str (l :: post))) as Hc.
    rewrite Hrest in Hc. inversion Hc; subst. assumption. }
  destruct (truthy_path path_to_genes_file) eqn:Hg.
  - split; [discriminate|]. intros _.
    apply bind_returned in H. destruct H as (gdf & Hgdf & H).
    cbn [apply_index_col] in Hidx. injection Hidx as <-.
    unfold set_index, concat_columns in H. cbn [columns values] in H.
    rewrite (genes_frame_columns _ _ _ Hgdf), position_after_range in H.
    injection H as <-. cbn [columns].
    pose proof (remove_nth_last (range_index (length first)) (Str "genes")) as E.
    rewrite range_index_length in E. rewrite E, Hwidth. reflexivity.
  - split; [|discriminate]. intros _.
    unfold set_columns, rename_index, n_columns in H.
    cbn [columns index index_name values] in H.
    destruct (Nat.eqb_spec (length (range_index (Z.to_nat n_features)))
                (length (columns wm))) as [Heq|]; [|discriminate].
    unfold apply_index_col in Hidx.
    destruct (range_index (length first) !! 0%nat) eqn:E0; [|discriminate].
    injection Hidx as <-. cbn [columns] in Heq.
    rewrite remove_nth_length, !range_index_length in Heq.
    pose proof (records_first_width _ _ _ _ Hrec') as Hp.
    rewrite Hfirst in Hp. lia.
Qed.

Lemma weight_matrix_width_of_first_data_line_witness :
  let pre := [row ["model v1"]] in
  let l := row ["1"; "2"] in
  let post := [row ["3"; "4"]] in
  exists df : DataFrame,
    Samples.files !! "bare.tsv" = Some Samples.weights_bare
    /\ file_lines Samples.weights_bare = pre ++ l :: post
    /\ Forall (narrow 2) pre /\ wide 2 l /\ data_line l
    /\ (length pre <= 1)%nat
    /\ load_weight_matrix 1 Samples.files "bare.tsv" 2 None (Some "genes.txt")
       = Returned df
    /\ (truthy_path (Some "genes.txt") = false ->
        field_count tab l = S (Z.to_nat 2))
    /\ (truthy_path (Some "genes.txt") = true ->
        columns df = range_index (field_count tab l)).
Proof.
  intros pre l post. eexists.
  assert (H1 : Samples.files !! "bare.tsv" = Some Samples.weights_bare)
    by reflexivity.
  assert (H2 : file_lines Samples.weights_bare = pre ++ l :: post) by reflexivity.
  assert (H3 : Forall (narrow 2) pre)
    by (repeat constructor; unfold narrow; vm_compute; reflexivity).
  assert (H4 : wide 2 l) by (unfold wide; vm_compute; discriminate).
  assert (H5 : data_line l) by reflexivity.
  assert (H6 : (length pre <= 1)%nat) by (simpl; lia).
  repeat (split; [assumption|]).
  split; [vm_compute; reflexivity|].
  apply (weight_matrix_width_of_first_data_line 1 Samples.files "bare.tsv"
           Samples.weights_bare 2 None (Some "genes.txt") pre l post _
           H1 H2 H3 H4 H5 H6).
  vm_compute. reflexivity.
Defined.

End WeightMatrixEdges.

Section GenesMismatch.

Import Pandas Text.

Lemma lookup_map_seq {A : Type} (f : nat -> A) (n i : nat) :
  (i < n)%nat -> map f (seq 0 n) !! i = Some (f i).
Proof.
  intros H. change (map f (seq 0 n)) with (f <$> seq 0 n).
  rewrite list_lookup_fmap, lookup_seq_lt by exact H. reflexivity.
Qed.

Lemma nth_beyond {A : Type} (l : list A) (d : A) (i : nat) :
  (length l <= i)%nat -> nth i l d = d.
Proof. apply nth_overflow. Qed.

(** The frame read from a genes file: one column named [genes], the
    default row labels. *)
Lemma genes_frame_shape (fs : file_system) (gpath : string) (gdf : DataFrame) :
  read_path fs gpath genes_args = Returned gdf ->
  columns gdf = [Str "genes"]
  /\ length (values gdf) = n_rows gdf
  /\ Forall (fun r => length r = 1%nat) (values gdf).
Proof.
  intros H. split; [exact (genes_frame_columns _ _ _ H)|].
  unfold read_path in H. destruct (fs !! gpath) as [gtext|]; [|discriminate].
  apply read_csv_plain in H; [|reflexivity|reflexivity].
  destruct H as (labels & data & Hld & _ & Hcols & Hidx & Hlen & Hw).
  unfold labels_and_data in Hld. cbn [sep genes_args names header] in Hld.
  destruct (records ","%char gtext); [discriminate|].
  injection Hld as <- _. unfold n_rows. rewrite Hidx, range_index_length.
  split; assumption.
Qed.

(** X4: a genes file of the wrong length is not rejected.  Once the
    matrix and the genes file have been read, the loader returns a table
    with as many rows as the longer of the two: matrix rows without an
    identifier are labelled with the missing value, and identifiers
    without a matrix row get a row of missing values. *)
Theorem genes_file_length_mismatch_is_padded (fuel : nat) (fs : file_system)
    (path gpath : string) (n_features : Z) (n_genes : option Z)
    (wm gdf : DataFrame) :
  gpath <> EmptyString ->
  _weight_matrix_file_skip_rows fuel fs path n_features
    (weight_matrix_args n_genes (Some gpath)) = Returned wm ->
  read_path fs gpath genes_args = Returned gdf ->
  exists df : DataFrame,
    load_weight_matrix fuel fs path n_features n_genes (Some gpath) = Returned df
    /\ n_rows df = Nat.max (n_rows wm) (n_rows gdf)
    /\ columns df = columns wm
    /\ (forall i : nat, (n_rows gdf <= i < n_rows wm)%nat ->
          index df !! i = Some NaN)
    /\ (forall i : nat, (n_rows wm <= i < n_rows gdf)%nat ->
          values df !! i = Some (replicate (n_columns wm) NaN)).
Proof.
  intros Hg Hwm Hgdf.
  destruct (skip_rows_returned _ _ _ _ _ _ Hwm) as (text & Hread).
  destruct (weight_matrix_without_labels _ _ _ _ Hg Hread)
    as (w & Hcols & _ & Hlen & Hw).
  destruct (genes_frame_shape _ _ _ Hgdf) as (Hgcols & Hglen & Hgw).
  unfold load_weight_matrix. rewrite Hwm, (truthy_path_some _ Hg).
  change (default EmptyString (Some gpath)) with gpath.
  cbn [bind]. rewrite Hgdf. cbn [bind].
  unfold set_index, concat_columns, n_columns. cbn [columns values].
  rewrite Hgcols, Hcols, position_after_range, range_index_length.
  eexists. split; [reflexivity|]. unfold n_rows. cbn [index columns values].
  assert (HA : forall i, length (nth i (values wm) (replicate w NaN)) = w)
    by (intros i; apply (nth_forall (fun r => length r = w));
        [exact Hw|apply length_replicate]).
  assert (HB : forall i, exists b,
             nth i (values gdf) (replicate (length [Str "genes"]) NaN) = [b]
             /\ ((length (values gdf) <= i)%nat -> b = NaN)).
  { intros i.
    destruct (Nat.lt_ge_cases i (length (values gdf))) as [Hi|Hi].
    - assert (Hb : length (nth i (values gdf)
                             (replicate (length [Str "genes"]) NaN)) = 1%nat)
        by (apply (nth_forall (fun r => length r = 1%nat));
            [exact Hgw|reflexivity]).
      destruct (nth i (values gdf) (replicate (length [Str "genes"]) NaN))
        as [|b [|? ?]]; try discriminate.
      exists b. split; [reflexivity|lia].
    - exists NaN. split; [apply nth_overflow; exact Hi|reflexivity]. }
  split; [rewrite !length_map, length_seq; reflexivity|].
  split.
  { pose proof (remove_nth_last (range_index w) (Str "genes")) as E.
    rewrite range_index_length in E. exact E. }
  unfold n_rows in Hlen, Hglen. split.
  - intros i [Hlo Hhi]. rewrite map_map, lookup_map_seq by lia.
    destruct (HB i) as (b & Hb & Hnan). rewrite Hb.
    rewrite app_nth2 by (rewrite HA; lia). rewrite HA, Nat.sub_diag.
    cbn [nth]. rewrite Hnan by lia. reflexivity.
  - intros i [Hlo Hhi]. rewrite map_map, lookup_map_seq by lia.
    destruct (HB i) as (b & Hb & _). rewrite Hb.
    pose proof (remove_nth_last (nth i (values wm) (replicate w NaN)) b) as E.
    rewrite HA in E. rewrite E, nth_overflow by lia. reflexivity.
Qed.

End GenesMismatch.

Lemma genes_file_length_mismatch_is_padded_witness :
  exists wm gdf : Pandas.DataFrame,
    "one_gene.txt" <> EmptyString
    /\ _weight_matrix_file_skip_rows 1 MoreSamples.files "bare.tsv" 2
         (weight_matrix_args None (Some "one_gene.txt")) = Returned wm
    /\ read_path MoreSamples.files "one_gene.txt" genes_args = Returned gdf
    /\ Pandas.n_rows wm = 2%nat /\ Pandas.n_rows gdf = 1%nat
    /\ exists df : Pandas.DataFrame,
         load_weight_matrix 1 MoreSamples.files "bare.tsv" 2 None
           (Some "one_gene.txt") = Returned df
         /\ Pandas.n_rows df = Nat.max (Pandas.n_rows wm) (Pandas.n_rows gdf)
         /\ Pandas.columns df = Pandas.columns wm
         /\ (forall i : nat, (Pandas.n_rows gdf <= i < Pandas.n_rows wm)%nat ->
               Pandas.index df !! i = Some Pandas.NaN)
         /\ (forall i : nat, (Pandas.n_rows wm <= i < Pandas.n_rows gdf)%nat ->
               Pandas.values df !! i
               = Some (replicate (Pandas.n_columns wm) Pandas.NaN)).
Proof.
  eexists. eexists.
  split; [discriminate|].
  split; [vm_compute; reflexivity|].
  split; [vm_compute; reflexivity|].
  split; [reflexivity|]. split; [reflexivity|].
  apply (genes_file_length_mismatch_is_padded 1 MoreSamples.files "bare.tsv"
           "one_gene.txt" 2 None).
  - discriminate.
  - vm_compute. reflexivity.
  - vm_compute. reflexivity.
Defined.

(** ** The pathway-definitions dictionary *)

Section PathwayDictionary.

Import Pandas.

Variable shorten_pathway_names : option (string -> string).

(** What the loop adds to the dictionary: the keys of the rows, each
    with the gene set of one of the rows of that key. *)
Lemma iterrows_loop_entries (rows : list (cell * list string)) :
  forall m m' : gmap cell (gset string),
  iterrows_loop shorten_pathway_names rows m = Returned m' ->
  (forall k, is_Some (m' !! k) <->
     is_Some (m !! k)
     \/ exists r, In r rows /\ shorten shorten_pathway_names (fst r) = Returned k)
  /\ (forall k v, m' !! k = Some v ->
        m !! k = Some v
        \/ exists r, In r rows
             /\ shorten shorten_pathway_names (fst r) = Returned k
             /\ v = list_to_set (snd r))
  /\ (size m' <= size m + length rows)%nat.
Proof.
  induction rows as [|[idx genes] rows IH]; intros m m' H; simpl in H.
  - injection H as <-. split; [|split].
    + intros k. split; [auto|]. intros [?|(r & [] & _)]. assumption.
    + auto.
    + simpl. lia.
  - apply bind_returned in H. destruct H as (k0 & Hk0 & H).
    destruct (IH _ _ H) as (Hdom & Hval & Hsize). split; [|split].
    + intros k. rewrite Hdom. split.
      * intros [Hin|(r & Hr & Hk)].
        -- destruct (decide (k0 = k)) as [->|Hne].
           ++ right. exists (idx, genes). split; [left; reflexivity|exact Hk0].
           ++ rewrite lookup_insert_ne in Hin by exact Hne. left. exact Hin.
        -- right. exists r. split; [right; exact Hr|exact Hk].
      * intros [Hin|(r & [<-|Hr] & Hk)].
        -- left. destruct (decide (k0 = k)) as [->|Hne].
           ++ rewrite lookup_insert_eq. eauto.
           ++ rewrite lookup_insert_ne by exact Hne. exact Hin.
        -- left. cbn [fst] in Hk. rewrite Hk0 in Hk. injection Hk as ->.
           rewrite lookup_insert_eq. eauto.
        -- right. eauto.
    + intros k v Hv. destruct (Hval k v Hv) as [Hin|(r & Hr & Hk & ->)].
      * destruct (decide (k0 = k)) as [->|Hne].
        -- rewrite lookup_insert_eq in Hin. injection Hin as <-.
           right. exists (idx, genes). repeat split; [left; reflexivity|exact Hk0].
        -- rewrite lookup_insert_ne in Hin by exact Hne. left. exact Hin.
      * right. exists r. repeat split; [right; exact Hr|exact Hk].
    + pose proof (map_size_insert k0 (list_to_set genes : gset string) m) as Hs.
      simpl length. destruct (m !! k0); unfold id in Hs; lia.
Qed.

(** X5: the dictionary of [load_pathway_definitions] holds the rows'
    names and nothing else.  A key is in it exactly when it is the
    (shortened) name of some row of the file; every value is the gene
    set of one row of that name, never a mixture; and there are at most
    as many entries as rows. *)
Theorem pathway_definitions_entries (fs : file_system) (path : string)
    (m : gmap cell (gset string)) :
  load_pathway_definitions fs path shorten_pathway_names = Returned m ->
  exists rows : list (cell * list string),
    pathway_rows fs path = Returned rows
    /\ (forall k, is_Some (m !! k) <->
          exists r, In r rows
            /\ shorten shorten_pathway_names (fst r) = Returned k)
    /\ (forall k v, m !! k = Some v ->
          exists r, In r rows
            /\ shorten shorten_pathway_names (fst r) = Returned k
            /\ v = list_to_set (snd r))
    /\ (size m <= length rows)%nat.
Proof.
  unfold load_pathway_definitions. intros H.
  apply bind_returned in H. destruct H as (rows & Hrows & H).
  destruct (iterrows_loop_entries _ _ _ H) as (Hdom & Hval & Hsize).
  exists rows. split; [exact Hrows|]. split; [|split].
  - intros k. rewrite Hdom, lookup_empty. split.
    + intros [[? ?]|?]; [discriminate|assumption].
    + auto.
  - intros k v Hv. destruct (Hval k v Hv) as [Hin|?]; [|assumption].
    rewrite lookup_empty in Hin. discriminate.
  - rewrite map_size_empty in Hsize. exact Hsize.
Qed.

End PathwayDictionary.

Lemma pathway_definitions_entries_witness :
  exists m : gmap Pandas.cell (gset string),
    load_pathway_definitions Samples.files "pathways.tsv"
      (Some Samples.first_four) = Returned m
    /\ exists rows : list (Pandas.cell * list string),
         pathway_rows Samples.files "pathways.tsv" = Returned rows
         /\ (forall k, is_Some (m !! k) <->
               exists r, In r rows
                 /\ shorten (Some Samples.first_four) (fst r) = Returned k)
         /\ (forall k v, m !! k = Some v ->
               exists r, In r rows
                 /\ shorten (Some Samples.first_four) (fst r) = Returned k
                 /\ v = list_to_set (snd r))
         /\ (size m <= length rows)%nat.
Proof.
  assert (Hrows : pathway_rows Samples.files "pathways.tsv"
                  = Returned [(Pandas.Str "long one", ["g1"; "g2"]);
                              (Pandas.Str "other", ["g3"]);
                              (Pandas.Str "long two", ["g4"; "g5"])])
    by (vm_compute; reflexivity).
  eexists.
  split; [unfold load_pathway_definitions; rewrite Hrows; reflexivity|].
  apply (pathway_definitions_entries (Some Samples.first_four) Samples.files
           "pathways.tsv").
  unfold load_pathway_definitions. rewrite Hrows. reflexivity.
Defined.

(** ** Rows kept by the sorting loaders *)

Section RowsKept.

Import Pandas.

Lemma insert_by_perm {A : Type} (leb : A -> A -> bool) (x : A) (l : list A) :
  Permutation (insert_by leb x l) (x :: l).
Proof.
  induction l as [|y l IH]; simpl; [reflexivity|].
  destruct (leb x y); [reflexivity|].
  rewrite IH. apply perm_swap.
Qed.

Lemma sort_by_perm {A : Type} (leb : A -> A -> bool) (l : list A) :
  Permutation (sort_by leb l) l.
Proof.
  induction l as [|x l IH]; simpl; [reflexivity|].
  rewrite insert_by_perm, IH. reflexivity.
Qed.

Lemma apply_column_columns (name : cell) (f : cell -> result cell)
    (df df' : DataFrame) :
  apply_column name f df = Returned df' ->
  columns df' = columns df /\ index df' = index df
  /\ index_name df' = index_name df.
Proof.
  unfold apply_column. destruct (position name (columns df)); [|discriminate].
  intros H. apply bind_returned in H. destruct H as (rows & _ & H).
  injection H as <-. repeat split.
Qed.

(** The names read from a header line are pairwise distinct. *)
Lemma string_length_append (a b : string) :
  String.length (a +:+ b) = (String.length a + String.length b)%nat.
Proof. induction a as [|c a IH]; simpl; [reflexivity|]. rewrite IH. reflexivity. Qed.

Lemma mangle_fresh (fuel : nat) :
  forall (counts : gmap string nat) (name : string),
  counted counts ->
  (size (at_least name (dom counts)) < fuel)%nat ->
  dom (fst (mangle fuel counts name)) = dom counts
  /\ counted (fst (mangle fuel counts name))
  /\ fst (mangle fuel counts name) !! snd (mangle fuel counts name) = None.
Proof.
  induction fuel as [|fuel IH]; intros counts name Hpos Hfuel; [lia|].
  cbn [mangle]. destruct (counts !! name) as [n|] eqn:En; cbn [default].
  2: { cbn. auto. }
  unfold id. pose proof (Hpos _ _ En) as Hn.
  destruct (Nat.ltb_spec 0 n); [|lia].
  assert (Hdom : dom (<[name := S n]> counts) = dom counts).
  { rewrite dom_insert_L. apply elem_of_dom_2 in En.
    apply subseteq_union_1_L, singleton_subseteq_l. exact En. }
  destruct (IH (<[name := S n]> counts) (name +:+ "." +:+ show_nat n))
    as (H1 & H2 & H3).
  - intros x m. destruct (decide (x = name)) as [->|Hx].
    + rewrite lookup_insert_eq. intros [= <-]. lia.
    + rewrite lookup_insert_ne by congruence. apply Hpos.
  - rewrite Hdom.
    assert (Hsub : at_least (name +:+ "." +:+ show_nat n) (dom counts)
                   ⊂ at_least name (dom counts)).
    { unfold at_least. split.
      - intros k. rewrite !elem_of_filter, !string_length_append. simpl.
        intros [? ?]. split; [lia|assumption].
      - intros Hsub. specialize (Hsub name).
        rewrite !elem_of_filter, !string_length_append in Hsub. simpl in Hsub.
        apply elem_of_dom_2 in En.
        assert (Hin : (String.length name <= String.length name)%nat
                      /\ name ∈ dom counts) by (split; [lia|assumption]).
        apply Hsub in Hin. lia. }
    apply subset_size in Hsub. lia.
  - rewrite H1, Hdom. auto.
Qed.

Lemma header_loop_fresh (fields : list string) :
  forall (i : nat) (counts : gmap string nat),
  counted counts ->
  NoDup (header_loop i counts fields)
  /\ forall x, In x (header_loop i counts fields) -> counts !! x = None.
Proof.
  induction fields as [|f fields IH]; intros i counts Hpos; cbn [header_loop].
  - split; [constructor|]. intros x [].
  - set (name := if String.eqb f EmptyString then _ else f).
    destruct (mangle_fresh (S (size counts)) counts name Hpos)
      as (Hdom & Hpos' & Hnew).
    { unfold at_least. rewrite <- size_dom.
      assert (Hsub : filter (fun k => (String.length name <= String.length k)%nat)
                       (dom counts) ⊆ dom counts)
        by (intros k Hk; apply elem_of_filter in Hk; tauto).
      apply subseteq_size in Hsub. lia. }
    destruct (mangle (S (size counts)) counts name) as [counts' name'] eqn:Em.
    cbn [fst snd] in *.
    destruct (IH (S i) (<[name' := S (default O (counts' !! name'))]> counts'))
      as [Hnd Hout].
    { intros x m. destruct (decide (x = name')) as [->|Hx].
      - rewrite lookup_insert_eq. intros [= <-]. lia.
      - rewrite lookup_insert_ne by congruence. apply Hpos'. }
    split.
    + constructor; [|exact Hnd].
      intros Hin. apply list_elem_of_In, Hout in Hin.
      rewrite lookup_insert_eq in Hin. discriminate.
    + intros x [<-|Hx].
      * apply not_elem_of_dom. rewrite <- Hdom. apply not_elem_of_dom. exact Hnew.
      * apply Hout in Hx. destruct (decide (x = name')) as [->|Hne].
        -- rewrite lookup_insert_eq in Hx. discriminate.
        -- rewrite lookup_insert_ne in Hx by congruence.
           apply not_elem_of_dom. rewrite <- Hdom. apply not_elem_of_dom. exact Hx.
Qed.

Lemma header_names_nodup (fields : list string) : NoDup (header_names fields).
Proof.
  apply (header_loop_fresh fields 0 ∅). intros x n H.
  rewrite lookup_empty in H. discriminate.
Qed.

Lemma header_loop_length (fields : list string) :
  forall i counts, length (header_loop i counts fields) = length fields.
Proof.
  induction fields as [|f fields IH]; intros i counts; cbn [header_loop];
    [reflexivity|].
  destruct (mangle _ _ _). simpl. rewrite IH. reflexivity.
Qed.

(** The columns of a frame read with a header and [usecols]: those of
    the header whose name was asked for, in file order, all the names
    asked for being among them. *)
Lemma read_csv_usecols (text : string) (sp : ascii) (cs : list string)
    (df : DataFrame) :
  read_csv text (mk_args (Some O) sp None None None (Some cs)) = Returned df ->
  exists (hd : list string) (rest : list (list string)),
    records sp text = hd :: rest
    /\ index_name df = None
    /\ columns df
       = List.filter (fun c => existsb (cell_eqb c) (map Str cs))
           (map Str (header_names hd))
    /\ Forall (fun c => In (Str c) (columns df)) cs.
Proof.
  unfold read_csv. cbn [nrows sep usecols index_col]. intros H.
  apply bind_returned in H. destruct H as (_ & _ & H).
  apply bind_returned in H. destruct H as ([labels data] & Hld & H).
  apply bind_returned in H. destruct H as (raw & _ & H).
  apply bind_returned in H. destruct H as (mask & Hmask & H).
  unfold labels_and_data in Hld. cbn [names header] in Hld.
  destruct (records sp text) as [|hd rest]; [discriminate|].
  injection Hld as <- <-. exists hd, rest. split; [reflexivity|].
  cbn [fst snd apply_index_col] in *. injection H as <-. cbn [index_name columns].
  unfold select_mask in Hmask.
  destruct (forallb (fun c => existsb (cell_eqb (Str c))
                      (map Str (header_names hd))) cs) eqn:Hall;
    [|discriminate].
  injection Hmask as <-. rewrite keep_map_filter.
  split; [reflexivity|]. split; [reflexivity|].
  apply List.Forall_forall. intros c Hc.
  rewrite forallb_forall in Hall. specialize (Hall c Hc).
  apply existsb_exists in Hall. destruct Hall as (c' & Hin & Heq).
  apply cell_eqb_eq in Heq. subst c'. apply filter_In. split; [exact Hin|].
  apply existsb_exists. exists (Str c). split; [|apply cell_eqb_refl].
  apply in_map. exact Hc.
Qed.

(** X6: sorting the significant pathways loses nothing.  The rows of the
    returned table, each with the row number it had in the file, are a
    rearrangement of the rows read (after the pathway names have been
    shortened); the columns are untouched. *)
Theorem significant_pathways_rows_kept (fs : file_system) (path : string)
    (shorten_pathway_names : option (string -> string)) (df : DataFrame) :
  load_significant_pathways_file fs path shorten_pathway_names = Returned df ->
  exists df0 : DataFrame,
    significant_pathways_unsorted fs path shorten_pathway_names = Returned df0
    /\ Permutation (labelled_rows df) (labelled_rows df0)
    /\ n_rows df = length (labelled_rows df0)
    /\ columns df = columns df0.
Proof.
  unfold load_significant_pathways_file. intros H.
  apply bind_returned in H. destruct H as (df0 & H0 & H).
  destruct (sort_values_spec _ _ _ H) as (ps & _ & Hcols & Hrows).
  exists df0. split; [exact H0|]. split; [|split].
  - rewrite Hrows. apply sort_by_perm.
  - unfold sort_values in H.
    destruct (positions [Str "feature"; Str "side"] (columns df0));
      [|discriminate].
    injection H as <-. unfold n_rows, with_rows. cbn [index].
    rewrite length_map, sort_by_length. reflexivity.
  - exact Hcols.
Qed.

Lemma significant_pathways_rows_kept_witness :
  exists df : DataFrame,
    load_significant_pathways_file Samples.files "significant.tsv"
      (Some Samples.first_four) = Returned df
    /\ exists df0 : DataFrame,
         significant_pathways_unsorted Samples.files "significant.tsv"
           (Some Samples.first_four) = Returned df0
         /\ Permutation (labelled_rows df) (labelled_rows df0)
         /\ n_rows df = length (labelled_rows df0)
         /\ columns df = columns df0.
Proof.
  eexists. split; [vm_compute; reflexivity|].
  apply (significant_pathways_rows_kept Samples.files "significant.tsv"
           (Some Samples.first_four)).
  vm_compute. reflexivity.
Defined.

(** X7: the columns of [load_significant_pathways_file].  The returned
    table has exactly the three columns [feature], [side] and [pathway],
    each once, in the order in which the header line has them; where the
    header repeats one of the names, the column is the first that
    carries it, the later ones having been renamed.  A header that lacks
    one of the names never gives a table.  The rows carry the default
    labels (no index name). *)
Theorem significant_pathways_columns (fs : file_system) (path : string)
    (shorten_pathway_names : option (string -> string)) (df : DataFrame) :
  load_significant_pathways_file fs path shorten_pathway_names = Returned df ->
  exists (text : string) (hd : list string) (rest : list (list string)),
    fs !! path = Some text
    /\ records Text.tab text = hd :: rest
    /\ columns df
       = List.filter (fun c => existsb (cell_eqb c) required_columns)
           (map Str (header_names hd))
    /\ List.NoDup (columns df)
    /\ (forall c : cell, In c (columns df) <-> In c required_columns)
    /\ length (columns df) = 3%nat
    /\ index_name df = None.
Proof.
  unfold load_significant_pathways_file. intros H.
  apply bind_returned in H. destruct H as (df0 & H0 & H).
  assert (Hsort : columns df = columns df0 /\ index_name df = index_name df0).
  { unfold sort_values in H.
    destruct (positions [Str "feature"; Str "side"] (columns df0));
      [|discriminate].
    injection H as <-. split; reflexivity. }
  destruct Hsort as [-> ->].
  unfold significant_pathways_unsorted in H0.
  apply bind_returned in H0. destruct H0 as (df1 & H1 & H0).
  assert (Hshort : columns df0 = columns df1 /\ index_name df0 = index_name df1).
  { destruct shorten_pathway_names.
    - apply apply_column_columns in H0. destruct H0 as (? & _ & ?). auto.
    - injection H0 as <-. auto. }
  destruct Hshort as [-> ->].
  unfold read_path in H1. destruct (fs !! path) as [text|]; [|discriminate].
  destruct (read_csv_usecols _ _ _ _ H1) as (hd & rest & Hrec & Hname & Hcols & Hall).
  change (map Str ["feature"; "side"; "pathway"]) with required_columns in Hcols.
  assert (Hnd : List.NoDup (columns df1)).
  { rewrite Hcols. apply List.NoDup_filter.
    apply Finite.Injective_map_NoDup;
      [|apply NoDup_ListNoDup, header_names_nodup].
    intros x y [= ->]. reflexivity. }
  assert (Hiff : forall c : cell, In c (columns df1) <-> In c required_columns).
  { intros c. split.
    - rewrite Hcols. intros Hc. apply filter_In in Hc. destruct Hc as [_ Hc].
      apply existsb_exists in Hc. destruct Hc as (c' & Hin & Heq).
      apply cell_eqb_eq in Heq. subst c'. exact Hin.
    - intros Hc. unfold required_columns in Hc.
      change [Str "feature"; Str "side"; Str "pathway"]
        with (map Str ["feature"; "side"; "pathway"]) in Hc.
      apply in_map_iff in Hc. destruct Hc as (s & <- & Hs).
      rewrite List.Forall_forall in Hall. apply Hall, Hs. }
  exists text, hd, rest. split; [reflexivity|]. split; [exact Hrec|].
  split; [exact Hcols|]. split; [exact Hnd|]. split; [exact Hiff|].
  split; [|exact Hname].
  assert (Hreq : List.NoDup required_columns).
  { unfold required_columns. repeat constructor; simpl; intuition discriminate. }
  apply (Permutation_length
           (Permutation.NoDup_Permutation Hnd Hreq Hiff)).
Qed.

Lemma significant_pathways_columns_witness :
  exists df : DataFrame,
    load_significant_pathways_file TypedSamples.files "repeated.tsv" None
    = Returned df
    /\ columns df = [Str "feature"; Str "side"; Str "pathway"]
    /\ column (Str "feature") df = Some [Int 1; Int 2]
    /\ exists (text : string) (hd : list string) (rest : list (list string)),
         TypedSamples.files !! "repeated.tsv" = Some text
         /\ records Text.tab text = hd :: rest
         /\ columns df
            = List.filter (fun c => existsb (cell_eqb c) required_columns)
                (map Str (header_names hd))
         /\ List.NoDup (columns df)
         /\ (forall c : cell, In c (columns df) <-> In c required_columns)
         /\ length (columns df) = 3%nat
         /\ index_name df = None.
Proof.
  eexists. split; [vm_compute; reflexivity|].
  split; [reflexivity|]. split; [reflexivity|].
  apply (significant_pathways_columns TypedSamples.files "repeated.tsv" None).
  vm_compute. reflexivity.
Defined.

Lemma keep_combine {A B : Type} (mask : list bool) :
  forall (xs : list A) (ys : list B),
  combine (keep mask xs) (keep mask ys) = keep mask (combine xs ys).
Proof.
  induction mask as [|b mask IH]; intros [|x xs] [|y ys]; simpl;
    try reflexivity.
  - destruct b; [|destruct (keep mask xs)]; reflexivity.
  - destruct b; simpl; rewrite IH; reflexivity.
Qed.

Lemma keep_map_fst {A B : Type} (p : A -> bool) :
  forall (xs : list A) (ys : list B),
  keep (map p xs) (combine xs ys) = List.filter (fun r => p (fst r)) (combine xs ys).
Proof.
  induction xs as [|x xs IH]; intros [|y ys]; simpl; try reflexivity.
  destruct (p x); rewrite IH; reflexivity.
Qed.

(** X8: [load_expression_dataset] drops the ambiguous genes and nothing
    else.  The rows of the returned table are a rearrangement of the
    rows of the file (indexed on its first column) whose label has no
    [?]; each row keeps its cells, and the columns and the index name
    are those of the file. *)
Theorem expression_dataset_rows_kept (fs : file_system) (path : string)
    (df : DataFrame) :
  load_expression_dataset fs path = Returned df ->
  exists df2 : DataFrame,
    expression_indexed fs path = Returned df2
    /\ Permutation (labelled_rows df)
         (List.filter unambiguous (labelled_rows df2))
    /\ columns df = columns df2
    /\ index_name df = index_name df2.
Proof.
  unfold load_expression_dataset, expression_indexed. intros H.
  apply bind_returned in H. destruct H as (df1 & H1 & H).
  rewrite H1. cbn [bind].
  destruct (columns df1) as [|index_on cols]; [discriminate|].
  apply bind_returned in H. destruct H as (df2 & H2 & H).
  apply bind_returned in H. destruct H as (found & Hfound & H).
  injection H as <-. exists df2. split; [exact H2|].
  unfold index_str_contains in Hfound.
  destruct (forallb is_str (index df2)) eqn:Hstr.
  2: { destruct (existsb is_str (index df2)); discriminate. }
  injection Hfound as <-.
  split; [|split; reflexivity].
  unfold sort_index. unfold labelled_rows at 1, with_rows. cbn [index values].
  rewrite combine_fst_snd, sort_by_perm.
  unfold labelled_rows, select_rows. cbn [index values].
  rewrite keep_combine, map_map, keep_map_fst.
  erewrite filter_ext_in; [reflexivity|].
  intros [l row] Hin. apply in_combine_l in Hin.
  rewrite forallb_forall in Hstr. specialize (Hstr l Hin).
  unfold unambiguous. cbn [fst]. destruct l; try discriminate. reflexivity.
Qed.

Lemma expression_dataset_rows_kept_witness :
  exists df : DataFrame,
    load_expression_dataset Samples.files "expression.tsv" = Returned df
    /\ exists df2 : DataFrame,
         expression_indexed Samples.files "expression.tsv" = Returned df2
         /\ Permutation (labelled_rows df)
              (List.filter unambiguous (labelled_rows df2))
         /\ columns df = columns df2
         /\ index_name df = index_name df2.
Proof.
  eexists. split; [vm_compute; reflexivity|].
  apply (expression_dataset_rows_kept Samples.files "expression.tsv").
  vm_compute. reflexivity.
Defined.

End RowsKept.

(** ** The row cap and what follows the matrix *)

Section RowCap.

Import Pandas Text.

Local Arguments String.append !_ _ / : simpl nomatch.

Lemma file_lines_app_line (s : string) :
  forall (l r t : string),
  read_line s = (l, r) -> s <> EmptyString ->
  (r = EmptyString -> t = EmptyString) ->
  file_lines (l +:+ t) = l :: file_lines t.
Proof.
  induction s as [|c s IH]; intros l r t Hl Hne Ht; [contradiction|].
  simpl in Hl. destruct (Ascii.eqb c newline) eqn:E.
  - injection Hl as <- <-. simpl. rewrite E. reflexivity.
  - destruct (read_line s) as [l' r'] eqn:El. injection Hl as <- <-.
    simpl. rewrite E. destruct s as [|c' s'].
    + simpl in El. injection El as <- <-. rewrite (Ht eq_refl). reflexivity.
    + rewrite (IH l' r' t eq_refl); [reflexivity|discriminate|exact Ht].
Qed.

(** The lines of a file up to some line are the lines of the text they
    make up. *)
Lemma file_lines_prefix (a : list string) :
  forall (s : string) (b : list string),
  file_lines s = a ++ b -> file_lines (concat_str a) = a.
Proof.
  induction a as [|l a IH]; intros s b H; [reflexivity|].
  destruct (file_lines_cons _ _ _ H) as (r & Hl & Hr & Hs).
  cbn [concat_str].
  rewrite (file_lines_app_line s l r (concat_str a) Hl).
  - rewrite (IH r b Hr). reflexivity.
  - intros ->. discriminate.
  - intros ->. simpl in Hr. destruct a; [reflexivity|discriminate].
Qed.

Lemma records_app_data_lines (text : string) (rows trailer : list string) :
  file_lines text = rows ++ trailer -> Forall data_line rows ->
  exists x, records tab text
            = map (fun l => split tab (chomp l)) rows ++ x.
Proof.
  intros H Hd. unfold records. rewrite H, map_app, List.filter_app, map_app.
  rewrite filter_all, map_map; [eauto|].
  apply List.Forall_map. eapply Forall_impl; [exact Hd|].
  intros l Hl. unfold data_line in Hl. rewrite Hl. reflexivity.
Qed.

(** With a row cap the parser's result depends on the capped records
    only. *)
Lemma read_csv_capped (t1 t2 : string) (sp : ascii) (ic : option nat) (g : Z)
    (a x y : list (list string)) :
  records sp t1 = a ++ x -> records sp t2 = a ++ y ->
  a <> [] -> length a = Z.to_nat g ->
  read_csv t1 (mk_args None sp ic (Some g) None None)
  = read_csv t2 (mk_args None sp ic (Some g) None None).
Proof.
  intros H1 H2 Hne Hlen. rewrite !read_csv_no_usecols by reflexivity.
  cbn [nrows sep index_col]. rewrite H1, H2.
  destruct a as [|first a]; [contradiction|].
  destruct (check_nrows (Some g)); try reflexivity. cbn [bind].
  unfold labels_and_data. cbn [names header app bind fst snd take_nrows].
  rewrite <- Hlen.
  change (first :: a ++ x) with ((first :: a) ++ x).
  change (first :: a ++ y) with ((first :: a) ++ y).
  rewrite !take_app_length. reflexivity.
Qed.

(** X9: what follows the first [n_genes] data lines is not parsed.  When
    the scan stops at [n_genes > 0] data lines, the helper with the row
    cap returns what it returns on those lines alone, whatever comes
    after them in the file; and the loader's outcome is the one it has
    on the file cut after those lines. *)
Theorem row_cap_ignores_trailing_lines (fuel : nat) (fs : file_system)
    (path content : string) (n_features g : Z)
    (path_to_genes_file : option string) (junk rows trailer : list string) :
  fs !! path = Some content ->
  file_lines content = junk ++ rows ++ trailer ->
  Forall (narrow n_features) junk ->
  wide n_features (hd EmptyString rows) ->
  Forall data_line rows ->
  (0 < g)%Z -> length rows = Z.to_nat g ->
  (length junk <= fuel)%nat ->
  _weight_matrix_file_skip_rows fuel fs path n_features
    (weight_matrix_args (Some g) path_to_genes_file)
  = read_csv (concat_str rows) (weight_matrix_args (Some g) path_to_genes_file)
  /\ (path_to_genes_file <> Some path ->
      load_weight_matrix fuel fs path n_features (Some g) path_to_genes_file
      = load_weight_matrix fuel (<[path := concat_str (junk ++ rows)]> fs) path
          n_features (Some g) path_to_genes_file).
Proof.
  intros Hfs Hlines Hjunk Hwide Hdata Hg Hlen Hfuel.
  destruct rows as [|l rows]; [simpl in Hlen; lia|]. cbn [hd] in Hwide.
  assert (Hskip : forall fs' content' tail,
             fs' !! path = Some content' ->
             file_lines content' = junk ++ (l :: rows) ++ tail ->
             _weight_matrix_file_skip_rows fuel fs' path n_features
               (weight_matrix_args (Some g) path_to_genes_file)
             = read_csv (concat_str (l :: rows))
                 (weight_matrix_args (Some g) path_to_genes_file)).
  { intros fs' content' tail Hfs' Hlines'.
    destruct (skip_rows_found fuel fs' path content' n_features
                (weight_matrix_args (Some g) path_to_genes_file) junk l
                (rows ++ tail) Hfs' Hlines' Hjunk Hwide Hfuel) as [_ ->].
    assert (Hrest : file_lines (concat_str ((l :: rows) ++ tail))
                    = (l :: rows) ++ tail).
    { pose proof (file_lines_drop junk content' _ Hlines') as Hd.
      rewrite <- Hd at 1. rewrite concat_file_lines. exact Hd. }
    destruct (records_app_data_lines _ _ _ Hrest Hdata) as (x & Hx).
    destruct (records_app_data_lines (concat_str (l :: rows)) (l :: rows) [])
      as (y & Hy); [|exact Hdata|].
    { rewrite app_nil_r. exact (file_lines_prefix _ _ _ Hrest). }
    rewrite weight_matrix_args_eq.
    replace (truthy_int (Some g)) with true
      by (simpl; destruct (Z.eqb_spec g 0); [lia|reflexivity]).
    apply (read_csv_capped _ _ _ _ _ _ x y Hx Hy); [discriminate|].
    rewrite length_map. exact Hlen. }
  split; [exact (Hskip fs content trailer Hfs Hlines)|].
  intros Hother. unfold load_weight_matrix.
  rewrite (Hskip fs content trailer Hfs Hlines).
  rewrite (Hskip (<[path := concat_str (junk ++ l :: rows)]> fs)
             (concat_str (junk ++ l :: rows)) []).
  - destruct (read_csv (concat_str (l :: rows))
                (weight_matrix_args (Some g) path_to_genes_file)) as [wm| |];
      try reflexivity. cbn [bind].
    destruct (truthy_path path_to_genes_file) eqn:Ht; [|reflexivity].
    destruct path_to_genes_file as [gpath|]; [|discriminate].
    change (default EmptyString (Some gpath)) with gpath. unfold read_path.
    rewrite lookup_insert_ne by congruence. reflexivity.
  - apply lookup_insert_eq.
  - rewrite app_nil_r. rewrite app_assoc in Hlines.
    exact (file_lines_prefix _ _ _ Hlines).
Qed.

Lemma row_cap_ignores_trailing_lines_witness :
  let junk := [row ["model v1"]] in
  let rows := [row ["a"; "1"; "2"]; row ["b"; "3"; "4"]] in
  let trailer := [row ["trained"; "on"; "950"; "samples"]] in
  MoreSamples.files !! "trailer.tsv" = Some MoreSamples.weights_with_trailer
  /\ file_lines MoreSamples.weights_with_trailer = junk ++ rows ++ trailer
  /\ Forall (narrow 2) junk
  /\ wide 2 (hd EmptyString rows)
  /\ Forall data_line rows
  /\ (0 < 2)%Z /\ length rows = Z.to_nat 2 /\ (length junk <= 1)%nat
  /\ _weight_matrix_file_skip_rows 1 MoreSamples.files "trailer.tsv" 2
       (weight_matrix_args (Some 2%Z) None)
     = read_csv (concat_str rows) (weight_matrix_args (Some 2%Z) None)
  /\ ((None : option string) <> Some "trailer.tsv" ->
      load_weight_matrix 1 MoreSamples.files "trailer.tsv" 2 (Some 2%Z) None
      = load_weight_matrix 1
          (<["trailer.tsv" := concat_str (junk ++ rows)]> MoreSamples.files)
          "trailer.tsv" 2 (Some 2%Z) None).
Proof.
  intros junk rows trailer.
  assert (H1 : MoreSamples.files !! "trailer.tsv"
               = Some MoreSamples.weights_with_trailer) by reflexivity.
  assert (H2 : file_lines MoreSamples.weights_with_trailer
               = junk ++ rows ++ trailer) by reflexivity.
  assert (H3 : Forall (narrow 2) junk)
    by (repeat constructor; unfold narrow; vm_compute; reflexivity).
  assert (H4 : wide 2 (hd EmptyString rows))
    by (unfold wide; vm_compute; discriminate).
  assert (H5 : Forall data_line rows) by (repeat constructor).
  assert (H6 : (0 < 2)%Z) by lia.
  assert (H7 : length rows = Z.to_nat 2) by reflexivity.
  assert (H8 : (length junk <= 1)%nat) by (simpl; lia).
  repeat (split; [assumption|]).
  exact (row_cap_ignores_trailing_lines 1 MoreSamples.files "trailer.tsv"
           MoreSamples.weights_with_trailer 2 2 None junk rows trailer
           H1 H2 H3 H4 H5 H6 H7 H8).
Defined.

End RowCap.

(** ** The cells of the weight matrix *)

Section WeightMatrixCells.

Import Pandas Text.

Lemma convert_row_nth (dtypes : list dtype) :
  forall (r : list (option string)) (j : nat),
  length r = length dtypes -> (j < length dtypes)%nat ->
  nth j (convert_row dtypes r) NaN = to_cell (nth j dtypes Object) (nth j r None).
Proof.
  induction dtypes as [|d dtypes IH]; intros [|f r] j Hl Hj; simpl in *;
    try lia; try discriminate.
  destruct j as [|j]; [reflexivity|]. apply IH; lia.
Qed.

Lemma column_dtypes_nth (w : nat) (rows : list (list (option string))) (j : nat) :
  (j < w)%nat ->
  nth j (column_dtypes w rows) Object
  = column_dtype (map (fun r => nth j r None) rows).
Proof.
  intros Hj. unfold column_dtypes.
  rewrite (nth_indep _ Object
             ((fun j => column_dtype (map (fun r => nth j r None) rows)) O))
    by (rewrite length_map, length_seq; exact Hj).
  rewrite (map_nth (fun j => column_dtype (map (fun r => nth j r None) rows))).
  rewrite seq_nth by exact Hj. reflexivity.
Qed.



Lemma take_nrows_map {A B : Type} (f : A -> B) (nr : option Z) (l : list A) :
  take_nrows nr (map f l) = map f (take_nrows nr l).
Proof.
  destruct nr; simpl; [|reflexivity].
  change (map f l) with (f <$> l). rewrite <- fmap_take. reflexivity.
Qed.






End WeightMatrixCells.

(** ** The pathway-definitions file *)

Section PathwayFile.

Import Pandas Text.

Lemma pad_rows_explicit (w : nat) (data : list (list string)) :
  Forall (fun r => (length r <= w)%nat) data ->
  pad_rows w data
  = Returned (map (fun r => map Some r ++ replicate (w - length r) None) data).
Proof.
  induction 1 as [|r data Hr _ IH]; simpl; [reflexivity|].
  destruct (Nat.ltb_spec w (length r)); [lia|]. rewrite IH. reflexivity.
Qed.

Lemma padded_length (w : nat) (r : list string) :
  (length r <= w)%nat ->
  length (map Some r ++ replicate (w - length r) (@None string)) = w.
Proof. intros H. rewrite length_app, length_map, length_replicate. lia. Qed.

(** Column [j] of the typed rows, for rows of any text. *)
Lemma infer_types_column (w : nat) (raw : list (list (option string))) (j : nat) :
  Forall (fun r => length r = w) raw -> (j < w)%nat ->
  map (fun r => nth j r NaN) (infer_types w raw)
  = map (fun r => to_cell (column_dtype (map (fun r => nth j r None) raw))
                    (nth j r None)) raw.
Proof.
  intros Hw Hj. unfold infer_types. rewrite map_map.
  apply map_ext_in. intros r Hr.
  rewrite List.Forall_forall in Hw. specialize (Hw r Hr).
  rewrite convert_row_nth by (rewrite column_dtypes_length; lia).
  rewrite column_dtypes_nth by exact Hj. reflexivity.
Qed.

(** The frame [load_pathway_definitions] reads, when no record has more
    than three fields. *)
Lemma pathway_frame (text : string) (recs : list (list string)) :
  records tab text = recs -> recs <> [] ->
  Forall (fun r => (length r <= 3)%nat) recs ->
  read_csv text pathway_args
  = Returned
      (mk_frame None (range_index (length recs))
         [Str "pw"; Str "size"; Str "genes"]
         (infer_types 3
            (map (fun r => map Some r ++ replicate (3 - length r) None) recs))).
Proof.
  intros Hrec Hne Hw. rewrite read_csv_no_usecols by reflexivity.
  unfold pathway_args. cbn [nrows sep index_col check_nrows bind]. rewrite Hrec.
  destruct recs as [|first rest]; [contradiction|].
  unfold labels_and_data. cbn [names header bind fst snd take_nrows].
  change (length (map Str ["pw"; "size"; "genes"])) with 3%nat.
  rewrite (pad_rows_explicit 3 (first :: rest) Hw). cbn [bind apply_index_col].
  f_equal. f_equal. f_equal. unfold infer_types. rewrite !length_map. reflexivity.
Qed.


Lemma nth_padded (r : list string) (w j : nat) :
  nth j r EmptyString = EmptyString ->
  raw_missing (nth j (map Some r ++ replicate (w - length r) None) None) = true.
Proof.
  intros Hr. destruct (Nat.lt_ge_cases j (length r)) as [Hj|Hj].
  - rewrite app_nth1 by (rewrite length_map; exact Hj).
    rewrite (nth_indep _ None (Some EmptyString)) by (rewrite length_map; exact Hj).
    rewrite (map_nth Some), Hr. reflexivity.
  - rewrite app_nth2 by (rewrite length_map; exact Hj).
    destruct (Nat.lt_ge_cases (j - length (map Some r)) (w - length r)) as [Hk|Hk].
    + assert (Hin : In (nth (j - length (map Some r))
                          (replicate (w - length r) (@None string)) None)
                      (replicate (w - length r) None))
        by (apply nth_In; rewrite length_replicate; exact Hk).
      apply list_elem_of_In, elem_of_replicate in Hin. destruct Hin as [-> _].
      reflexivity.
    + rewrite nth_overflow by (rewrite length_replicate; exact Hk). reflexivity.
Qed.

Lemma to_cell_missing (d : dtype) (f : option string) :
  raw_missing f = true -> to_cell d f = NaN.
Proof.
  destruct f as [s|]; simpl; [|reflexivity]. intros ->. reflexivity.
Qed.

Lemma split_genes_raises (col : list cell) :
  Exists (fun c => c = NaN) col ->
  exists msg, map_result split_genes col = Raised (AttributeError msg).
Proof.
  induction 1 as [c col ->|c col _ IH]; simpl.
  - eauto.
  - destruct c; simpl; eauto.
    destruct IH as (msg & ->). simpl. eauto.
Qed.



(** X12: a line without genes is an attribute error.  When no record
    has more than three fields and the third field of some record is
    missing or empty, [load_pathway_definitions] raises
    [AttributeError]: the cell is the missing value, which has no
    [split]. *)
Theorem pathway_row_without_genes_raises (fs : file_system)
    (path text : string) (recs : list (list string))
    (shorten_pathway_names : option (string -> string)) :
  fs !! path = Some text ->
  records tab text = recs ->
  Forall (fun r => (length r <= 3)%nat) recs ->
  Exists (fun r => nth 2 r EmptyString = EmptyString) recs ->
  exists msg : string,
    load_pathway_definitions fs path shorten_pathway_names
    = Raised (AttributeError msg).
Proof.
  intros Hfs Hrec Hw Hex.
  assert (Hne : recs <> []) by (intros ->; inversion Hex).
  unfold load_pathway_definitions, pathway_rows, read_path. rewrite Hfs.
  change (mk_args None tab None None (Some ["pw"; "size"; "genes"]) None)
    with pathway_args.
  rewrite (pathway_frame text recs Hrec Hne Hw). cbn [bind].
  unfold column. cbn [columns values position].
  replace (cell_eqb (Str "genes") (Str "pw")) with false by reflexivity.
  replace (cell_eqb (Str "genes") (Str "size")) with false by reflexivity.
  rewrite cell_eqb_refl. cbn [option_map].
  rewrite infer_types_column; [|apply List.Forall_map; eapply Forall_impl;
    [exact Hw|]; intros r Hr; simpl; apply padded_length; exact Hr|lia].
  rewrite map_map.
  destruct (split_genes_raises
              (map (fun r => to_cell
                      (column_dtype
                         (map (fun r0 => nth 2 r0 None)
                            (map (fun r0 => map Some r0
                                    ++ replicate (3 - length r0) None) recs)))
                      (nth 2 (map Some r ++ replicate (3 - length r) None) None))
                 recs)) as (msg & Hmsg).
  - apply List.Exists_map. eapply List.Exists_impl; [|exact Hex].
    intros r Hr. cbv beta in Hr |- *. apply to_cell_missing, nth_padded, Hr.
  - exists msg. rewrite Hmsg. reflexivity.
Qed.

Lemma pathway_row_without_genes_raises_witness :
  let recs := [["p1"; "2"; "g1;g2"]; ["p2"; "0"]] in
  MoreSamples.files !! "short.tsv" = Some MoreSamples.pathways_short_row
  /\ records tab MoreSamples.pathways_short_row = recs
  /\ Forall (fun r => (length r <= 3)%nat) recs
  /\ Exists (fun r => nth 2 r EmptyString = EmptyString) recs
  /\ exists msg : string,
       load_pathway_definitions MoreSamples.files "short.tsv" None
       = Raised (AttributeError msg).
Proof.
  intros recs.
  assert (H1 : MoreSamples.files !! "short.tsv"
               = Some MoreSamples.pathways_short_row) by reflexivity.
  assert (H2 : records tab MoreSamples.pathways_short_row = recs) by reflexivity.
  assert (H3 : Forall (fun r => (length r <= 3)%nat) recs)
    by (repeat constructor).
  assert (H4 : Exists (fun r => nth 2 r EmptyString = EmptyString) recs)
    by (apply Exists_cons_tl, Exists_cons_hd; reflexivity).
  repeat (split; [assumption|]).
  exact (pathway_row_without_genes_raises MoreSamples.files "short.tsv"
           MoreSamples.pathways_short_row recs None H1 H2 H3 H4).
Defined.

End PathwayFile.
